(** * Astronomia: transformation of astronomical coordinates

    A shallow embedding of [Astronomia/core/utils.py],
    [Astronomia/core/constants.py] and [Astronomia/chapters/coordinates.py]:
    the unit utilities, the context resolver, the spherical formulas, the
    hub-and-spoke router [_nucleo_transformacion] and the public entry point
    [transformar].

    Python exceptions are values of [exn] carried by an error monad.  The
    numbers are kept abstract: the engine is written once over a class
    [NumPy F] that lists the float and numpy primitives the source uses, so
    every statement about control flow and errors holds for any arithmetic,
    that of IEEE doubles included.  Statements about magnitudes are proved on
    the instance [Real.numpy], where a float is read as the real number it
    stands for and every operation is the exact one; rounding is not
    modelled.  Coordinates are floats or triples of floats: arrays are left
    out. *)

From Stdlib Require Import Reals Lra Lia ZArith QArith Qreals String List.
From Stdlib Require Import Zfloor.
From stdpp Require Import base option gmap strings.

Import ListNotations.
Open Scope string_scope.

(** ** Exceptions and the error monad *)

(** The four [ValueError] messages of [coordinates.py]. *)
Inductive mensaje : Type :=
  | UnidadEntradaDesconocida (unidad : string)
  | UnidadSalidaDesconocida (unidad : string)
  | FaltaParametro (k sistema : string)
  | SistemaDestinoNoSoportado (destino : string).

(** The text of each message, as the f-strings build it. *)
Definition texto (m : mensaje) : string :=
  match m with
  | UnidadEntradaDesconocida u => "Unidad de entrada desconocida: " ++ u
  | UnidadSalidaDesconocida u => "Unidad de salida desconocida: " ++ u
  | FaltaParametro k s => "Falta parámetro '" ++ k ++ "' para el sistema " ++ s
  | SistemaDestinoNoSoportado d => "Sistema destino no soportado: " ++ d
  end.

(** What a call can raise.  [AttributeError] is the lookup of a name a module
    does not define; [IndexError] is the indexing [val[..., 0]] of a
    zero-dimensional array; [KeyError] is [ctx[k]] for an absent key;
    [TypeError] is the product of a tuple and a float;
    [NoModelado] is not a Python exception: it marks what this development
    leaves out, namely array-valued data (numpy broadcasts a triple handed
    over under a scalar unit) and a function of [utils] called at another
    shape than the one it is defined with. *)
Inductive exn : Type :=
  | ValueError (m : mensaje)
  | AttributeError (modulo nombre : string)
  | IndexError
  | KeyError (k : string)
  | TypeError
  | NoModelado.

Inductive result (A : Type) : Type :=
  | Ok (a : A)
  | Err (e : exn).
Arguments Ok {A} a.
Arguments Err {A} e.

(** [result] is a monad; the notations [x ← r; k] and [r;; k] are stdpp's. *)
#[global] Instance result_ret : MRet result := fun A a => Ok a.
#[global] Instance result_bind : MBind result := fun A B f r =>
  match r with
  | Ok a => f a
  | Err e => Err e
  end.

(** The error taxonomy of the specification, and the class of each exception
    of the program in it. *)
Inductive taxon : Type := InvalidUnit | UnsupportedSystem | MissingContextParameter.

Definition taxonomia (e : exn) : option taxon :=
  match e with
  | ValueError (UnidadEntradaDesconocida _) => Some InvalidUnit
  | ValueError (UnidadSalidaDesconocida _) => Some InvalidUnit
  | ValueError (SistemaDestinoNoSoportado _) => Some UnsupportedSystem
  | ValueError (FaltaParametro _ _) => Some MissingContextParameter
  | _ => None
  end.

(** ** The numeric primitives

    The operations of Python floats and of numpy that the sources use, on a
    carrier [F] of floats. *)
Class NumPy (F : Type) : Type := {
  lit : Q -> F;                    (* a numeric literal *)
  fadd : F -> F -> F;
  fsub : F -> F -> F;
  fmul : F -> F -> F;
  fdiv : F -> F -> F;
  fneg : F -> F;
  fmod : F -> F -> F;              (* x % y, written [x mod y] below *)
  feqb : F -> F -> bool;           (* x == y *)
  fleb : F -> F -> bool;           (* x <= y *)
  int_ : F -> Z;                   (* int(x): truncation towards zero *)
  np_pi : F;
  np_abs : F -> F;
  np_sign : F -> F;
  np_radians : F -> F;
  np_degrees : F -> F;
  np_sin : F -> F;
  np_cos : F -> F;
  np_arcsin : F -> F;
  np_arccos : F -> F;
  np_arctan2 : F -> F -> F;
  np_clip : F -> F -> F -> F
}.

Arguments lit {F _} q%_Q.

Declare Scope num_scope.
Delimit Scope num_scope with num.
Notation "x + y" := (fadd x y) : num_scope.
Notation "x - y" := (fsub x y) : num_scope.
Notation "x * y" := (fmul x y) : num_scope.
Notation "x / y" := (fdiv x y) : num_scope.
Notation "- x" := (fneg x) : num_scope.
Notation "x 'mod' y" := (fmod x y) : num_scope.

(** ** [core/utils.py] and [core/constants.py] *)

Module utils.
Section Utils.
Context {F : Type} `{NumPy F}.
Local Open Scope num_scope.

(** An [int] where the source mixes it with a [float]. *)
Definition of_int (n : Z) : F := lit (inject_Z n).

(** [to_rad(d, m=0, s=0, sign=1)] *)
Definition to_rad (d m s sign : F) : F :=
  let deg := np_abs d + m / lit 60.0 + s / lit 3600.0 in
  np_radians deg
  * np_sign (if negb (feqb sign (lit 0)) then sign else lit 1)
  * np_sign (if negb (feqb d (lit 0)) then d else lit 1).

(** [to_hms(rad)] *)
Definition to_hms (rad : F) : Z * Z * F :=
  let rad := rad mod (lit 2 * np_pi) in
  let hours_dec := np_degrees rad / lit 15.0 in
  let h := int_ hours_dec in
  let rem := (hours_dec - of_int h) * lit 60.0 in
  let m := int_ rem in
  let s := (rem - of_int m) * lit 60.0 in
  (h, m, s).

(** [to_dms(rad)] *)
Definition to_dms (rad : F) : Z * Z * F :=
  let deg_dec := np_degrees rad in
  let sign := if fleb (lit 0) deg_dec then 1%Z else (-1)%Z in
  let deg_dec := np_abs deg_dec in
  let d := int_ deg_dec in
  let rem := (deg_dec - of_int d) * lit 60.0 in
  let m := int_ rem in
  let s := (rem - of_int m) * lit 60.0 in
  ((sign * d)%Z, m, s).

(** [normalize_pi(angle)] *)
Definition normalize_pi (angle : F) : F :=
  (angle + np_pi) mod (lit 2 * np_pi) - np_pi.

(** The functions a module can hold, by the shape of their call. *)
Inductive attr : Type :=
  | Compone (f : F -> F -> F -> F -> F)   (* (d, m, s, sign) to radians *)
  | Descompone (f : F -> Z * Z * F)       (* radians to a triple *)
  | Angulo (f : F -> F).                  (* an angle to an angle *)

(** The names [core/utils.py] defines, in the order of the file. *)
Definition namespace : list (string * attr) :=
  [ ("to_rad", Compone to_rad);
    ("to_hms", Descompone to_hms);
    ("to_dms", Descompone to_dms);
    ("normalize_pi", Angulo normalize_pi) ].

Fixpoint busca (nombre : string) (ns : list (string * attr)) : option attr :=
  match ns with
  | [] => None
  | (n, a) :: ns' => if String.eqb nombre n then Some a else busca nombre ns'
  end.

(** The exception for a name the module lacks. *)
Definition sin_atributo (nombre : string) : exn :=
  AttributeError "Astronomia.core.utils" nombre.

(** [utils.<nombre>]: the attribute, or [AttributeError]. *)
Definition getattr (nombre : string) : result attr :=
  match busca nombre namespace with
  | Some a => Ok a
  | None => Err (sin_atributo nombre)
  end.

(** The call [f(x)] of an attribute, an angle for an angle. *)
Definition aplica_angulo (a : attr) (x : F) : result F :=
  match a with
  | Angulo f => Ok (f x)
  | _ => Err NoModelado
  end.

(** The call [f(d, m, s)], radians for a triple. *)
Definition aplica_compone (a : attr) (d m s : F) : result F :=
  match a with
  | Compone f => Ok (f d m s (lit 1))
  | _ => Err NoModelado
  end.

(** The call [f(rad)], a triple for radians. *)
Definition aplica_descompone (a : attr) (rad : F) : result (Z * Z * F) :=
  match a with
  | Descompone f => Ok (f rad)
  | _ => Err NoModelado
  end.

(** [utils.<nombre>(x)] with [x] already evaluated. *)
Definition llama_angulo (nombre : string) (x : F) : result F :=
  a ← getattr nombre; aplica_angulo a x.
End Utils.
End utils.

Module constants.
Section Constants.
Context {F : Type} `{NumPy F}.
Local Open Scope num_scope.

(** [EPSILON_J2000 = np.radians(23 + 26/60 + 21.448/3600)] *)
Definition EPSILON_J2000 : F :=
  np_radians (lit 23 + lit 26 / lit 60 + lit 21.448 / lit 3600).
End Constants.
End constants.

(** ** [chapters/coordinates.py] *)

(** [class Sistema] *)
Module Sistema.
Definition HORIZONTAL : string := "horizontal".
Definition HORARIO : string := "horario".
Definition ECUATORIAL : string := "ecuatorial".
Definition ECLIPTICO : string := "ecliptico".
Definition GALACTICO : string := "galactico".

Definition todos : list string :=
  [HORIZONTAL; HORARIO; ECUATORIAL; ECLIPTICO; GALACTICO].

(** A tag of the five systems. *)
Definition reconocido (s : string) : bool :=
  existsb (String.eqb s) todos.
End Sistema.

(** [class Unidad] *)
Module Unidad.
Definition RAD : string := "rad".
Definition DEG : string := "deg".
Definition HOUR : string := "hour".
Definition DMS : string := "dms".
Definition HMS : string := "hms".

Definition todas : list string := [RAD; DEG; HOUR; DMS; HMS].

Definition reconocida (u : string) : bool :=
  existsb (String.eqb u) todas.
End Unidad.

Module coordinates.
Section Coordinates.
Context {F : Type} `{NumPy F}.
Local Open Scope num_scope.

(** A coordinate on entry: a float or a triple [(g, m, s)]. *)
Inductive entrada : Type :=
  | Num (x : F)
  | Terna (a b c : F).

(** A coordinate on exit: a float or a triple. *)
Inductive salida : Type :=
  | Valor (x : F)
  | Triple (t : Z * Z * F).

(** The keyword arguments and the context: a [dict] from names to floats. *)
Local Abbreviation contexto := (gmap string F).

(** *** Spherical formulas

    Each function of the source computes its two angles and then hands the
    longitude to [utils.normalize_rad]; the part before that call is the
    [_formula] definition here. *)

Definition _horizontal_to_horary_sin_delta (A z phi : F) : F :=
  let sin_z := np_sin z in let cos_z := np_cos z in
  let cos_A := np_cos A in
  let sin_phi := np_sin phi in let cos_phi := np_cos phi in
  - sin_z * cos_A * cos_phi + cos_z * sin_phi.

Definition _horizontal_to_horary_formula (A z phi : F) : F * F :=
  let sin_z := np_sin z in let cos_z := np_cos z in
  let sin_A := np_sin A in let cos_A := np_cos A in
  let sin_phi := np_sin phi in let cos_phi := np_cos phi in
  let sin_delta := _horizontal_to_horary_sin_delta A z phi in
  let delta := np_arcsin (np_clip sin_delta (lit (-1)) (lit 1)) in
  let y := sin_z * sin_A in
  let x := sin_z * cos_A * sin_phi + cos_z * cos_phi in
  let H := np_arctan2 y x in
  (H, delta).

Definition _horizontal_to_horary (A z phi : F) : result (F * F) :=
  let '(H, delta) := _horizontal_to_horary_formula A z phi in
  H' ← utils.llama_angulo "normalize_rad" H;
  Ok (H', delta).

Definition _horary_to_horizontal_cos_z (H delta phi : F) : F :=
  let sin_d := np_sin delta in let cos_d := np_cos delta in
  let cos_H := np_cos H in
  let sin_phi := np_sin phi in let cos_phi := np_cos phi in
  cos_d * cos_H * cos_phi + sin_d * sin_phi.

Definition _horary_to_horizontal_formula (H delta phi : F) : F * F :=
  let sin_d := np_sin delta in let cos_d := np_cos delta in
  let sin_H := np_sin H in let cos_H := np_cos H in
  let sin_phi := np_sin phi in let cos_phi := np_cos phi in
  let cos_z := _horary_to_horizontal_cos_z H delta phi in
  let z := np_arccos (np_clip cos_z (lit (-1)) (lit 1)) in
  let num := cos_d * sin_H in
  let den := cos_d * cos_H * sin_phi - sin_d * cos_phi in
  let A := np_arctan2 num den in
  (A, z).

Definition _horary_to_horizontal (H delta phi : F) : result (F * F) :=
  let '(A, z) := _horary_to_horizontal_formula H delta phi in
  A' ← utils.llama_angulo "normalize_rad" A;
  Ok (A', z).

Definition _equatorial_to_ecliptic_sin_b (alpha delta eps : F) : F :=
  let sin_d := np_sin delta in let cos_d := np_cos delta in
  let sin_a := np_sin alpha in
  let sin_e := np_sin eps in let cos_e := np_cos eps in
  - cos_d * sin_a * sin_e + sin_d * cos_e.

Definition _equatorial_to_ecliptic_formula (alpha delta eps : F) : F * F :=
  let sin_d := np_sin delta in let cos_d := np_cos delta in
  let sin_a := np_sin alpha in let cos_a := np_cos alpha in
  let sin_e := np_sin eps in let cos_e := np_cos eps in
  let sin_b := _equatorial_to_ecliptic_sin_b alpha delta eps in
  let beta := np_arcsin (np_clip sin_b (lit (-1)) (lit 1)) in
  let y := cos_d * sin_a * cos_e + sin_d * sin_e in
  let x := cos_d * cos_a in
  let lamb := np_arctan2 y x in
  (lamb, beta).

Definition _equatorial_to_ecliptic (alpha delta eps : F) : result (F * F) :=
  let '(lamb, beta) := _equatorial_to_ecliptic_formula alpha delta eps in
  lamb' ← utils.llama_angulo "normalize_rad" lamb;
  Ok (lamb', beta).

Definition _ecliptic_to_equatorial_sin_d (lamb beta eps : F) : F :=
  let sin_b := np_sin beta in let cos_b := np_cos beta in
  let sin_l := np_sin lamb in
  let sin_e := np_sin eps in let cos_e := np_cos eps in
  cos_b * sin_l * sin_e + sin_b * cos_e.

Definition _ecliptic_to_equatorial_formula (lamb beta eps : F) : F * F :=
  let sin_b := np_sin beta in let cos_b := np_cos beta in
  let sin_l := np_sin lamb in let cos_l := np_cos lamb in
  let sin_e := np_sin eps in let cos_e := np_cos eps in
  let sin_d := _ecliptic_to_equatorial_sin_d lamb beta eps in
  let delta := np_arcsin (np_clip sin_d (lit (-1)) (lit 1)) in
  let y := cos_b * sin_l * cos_e - sin_b * sin_e in
  let x := cos_b * cos_l in
  let alpha := np_arctan2 y x in
  (alpha, delta).

Definition _ecliptic_to_equatorial (lamb beta eps : F) : result (F * F) :=
  let '(alpha, delta) := _ecliptic_to_equatorial_formula lamb beta eps in
  alpha' ← utils.llama_angulo "normalize_rad" alpha;
  Ok (alpha', delta).

(** The J2000 constants both galactic functions set up. *)
Definition ap : F := np_radians (lit 192.85948).
Definition dp : F := np_radians (lit 27.12825).
Definition lnode : F := np_radians (lit 32.93192).

Definition _equatorial_to_galactic_sin_b (alpha delta : F) : F :=
  let sin_d := np_sin delta in let cos_d := np_cos delta in
  let sin_dp := np_sin dp in let cos_dp := np_cos dp in
  let diff := alpha - ap in
  sin_d * sin_dp + cos_d * cos_dp * np_cos diff.

Definition _equatorial_to_galactic_formula (alpha delta : F) : F * F :=
  let sin_d := np_sin delta in let cos_d := np_cos delta in
  let sin_dp := np_sin dp in let cos_dp := np_cos dp in
  let diff := alpha - ap in
  let sin_b := _equatorial_to_galactic_sin_b alpha delta in
  let b := np_arcsin (np_clip sin_b (lit (-1)) (lit 1)) in
  let y := cos_d * np_sin diff in
  let x := sin_d * cos_dp - cos_d * sin_dp * np_cos diff in
  let l := lnode - np_arctan2 y x in
  (l, b).

Definition _equatorial_to_galactic (alpha delta : F) : result (F * F) :=
  let '(l, b) := _equatorial_to_galactic_formula alpha delta in
  l' ← utils.llama_angulo "normalize_rad" l;
  Ok (l', b).

(** The second assignment of [sin_d] in the source, the one that is used. *)
Definition _galactic_to_equatorial_sin_d (l b : F) : F :=
  np_sin b * np_sin dp + np_cos b * np_cos dp * np_cos (l - lnode).

Definition _galactic_to_equatorial_formula (l b : F) : F * F :=
  let y := np_cos b * np_sin (l - lnode) in
  let x := np_sin b * np_cos dp - np_cos b * np_sin dp * np_cos (l - lnode) in
  let sin_d := _galactic_to_equatorial_sin_d l b in
  let delta := np_arcsin (np_clip sin_d (lit (-1)) (lit 1)) in
  let alpha := np_arctan2 y x + ap in
  (alpha, delta).

Definition _galactic_to_equatorial (l b : F) : result (F * F) :=
  let '(alpha, delta) := _galactic_to_equatorial_formula l b in
  alpha' ← utils.llama_angulo "normalize_rad" alpha;
  Ok (alpha', delta).

(** *** Units and context *)

(** [_normalizar_contexto(kwargs)] *)
Definition _normalizar_contexto (kwargs : contexto) : contexto :=
  let ctx := kwargs in
  let ctx :=
    match ctx !! "phi_deg" with
    | Some v => <["phi" := np_radians v]> (delete "phi_deg" ctx)
    | None => ctx
    end in
  let ctx :=
    match ctx !! "TS_h" with
    | Some v => <["TS" := np_radians (v * lit 15.0)]> (delete "TS_h" ctx)
    | None =>
        match ctx !! "TS_deg" with
        | Some v => <["TS" := np_radians v]> (delete "TS_deg" ctx)
        | None => ctx
        end
    end in
  let ctx :=
    match ctx !! "epsilon_deg" with
    | Some v => <["epsilon" := np_radians v]> (delete "epsilon_deg" ctx)
    | None => ctx
    end in
  ctx.

(** [_input_a_rad(val, unidad, es_tiempo)].  For DMS and HMS the value
    becomes [np.array(val)]: a triple has [ndim == 1] and [shape[0] == 3];
    a float has [ndim == 0], and the indexing [val[..., 0]] of the second
    call, which is evaluated after the function is looked up, raises. *)
Definition _input_a_rad (val : entrada) (unidad : string) (es_tiempo : bool)
    : result F :=
  if String.eqb unidad Unidad.RAD then
    match val with Num x => Ok x | Terna _ _ _ => Err NoModelado end
  else if String.eqb unidad Unidad.DEG then
    match val with Num x => Ok (np_radians x) | Terna _ _ _ => Err NoModelado end
  else if String.eqb unidad Unidad.HOUR then
    match val with
    | Num x => Ok (np_radians (x * lit 15.0))
    | Terna _ _ _ => Err TypeError
    end
  else if String.eqb unidad Unidad.DMS then
    match val with
    | Terna a b c => f ← utils.getattr "to_rad"; utils.aplica_compone f a b c
    | Num _ => f ← utils.getattr "to_rad"; Err IndexError
    end
  else if String.eqb unidad Unidad.HMS then
    match val with
    | Terna a b c => f ← utils.getattr "hms_to_rad"; utils.aplica_compone f a b c
    | Num _ => f ← utils.getattr "hms_to_rad"; Err IndexError
    end
  else Err (ValueError (UnidadEntradaDesconocida unidad)).

(** [_rad_a_output(val_rad, unidad, es_tiempo)] *)
Definition _rad_a_output (val_rad : F) (unidad : string) (es_tiempo : bool)
    : result salida :=
  if String.eqb unidad Unidad.RAD then Ok (Valor val_rad)
  else if String.eqb unidad Unidad.DEG then
    let deg := np_degrees val_rad in
    Ok (Valor deg)
  else if String.eqb unidad Unidad.HOUR then
    Ok (Valor ((np_degrees val_rad / lit 15.0) mod lit 24.0))
  else if String.eqb unidad Unidad.DMS then
    f ← utils.getattr "rad_to_dms"; t ← utils.aplica_descompone f val_rad; Ok (Triple t)
  else if String.eqb unidad Unidad.HMS then
    f ← utils.getattr "rad_to_hms"; t ← utils.aplica_descompone f val_rad; Ok (Triple t)
  else Err (ValueError (UnidadSalidaDesconocida unidad)).

(** [_validar_ctx(ctx, keys, sistema)]; a single key is passed as the
    one-element list the first line of the source makes of it. *)
Fixpoint _validar_ctx (ctx : contexto) (keys : list string) (sistema : string)
    : result unit :=
  match keys with
  | [] => Ok tt
  | k :: keys' =>
      match ctx !! k with
      | None => Err (ValueError (FaltaParametro k sistema))
      | Some _ => _validar_ctx ctx keys' sistema
      end
  end.

(** [ctx[k]] *)
Definition item (ctx : contexto) (k : string) : result F :=
  match ctx !! k with
  | Some v => Ok v
  | None => Err (KeyError k)
  end.

(** *** The router *)

(** Step 1 of [_nucleo_transformacion]: origin to the equatorial hub.  The
    pair starts as [(0.0, 0.0)] and no branch of the chain is an [else]. *)
Definition _paso_1 (c1 c2 : F) (origen : string) (ctx : contexto)
    : result (F * F) :=
  let '(alpha, delta) := (lit 0.0, lit 0.0) in
  if String.eqb origen Sistema.ECUATORIAL then Ok (c1, c2)
  else if String.eqb origen Sistema.HORARIO then
    _validar_ctx ctx ["TS"] origen;;
    f ← utils.getattr "normalize_rad";
    TS ← item ctx "TS";
    alpha ← utils.aplica_angulo f (TS - c1);
    Ok (alpha, c2)
  else if String.eqb origen Sistema.HORIZONTAL then
    _validar_ctx ctx ["phi"; "TS"] origen;;
    phi ← item ctx "phi";
    '(H, delta) ← _horizontal_to_horary c1 c2 phi;
    f ← utils.getattr "normalize_rad";
    TS ← item ctx "TS";
    alpha ← utils.aplica_angulo f (TS - H);
    Ok (alpha, delta)
  else if String.eqb origen Sistema.ECLIPTICO then
    let eps := default constants.EPSILON_J2000 (ctx !! "epsilon") in
    _ecliptic_to_equatorial c1 c2 eps
  else if String.eqb origen Sistema.GALACTICO then
    _galactic_to_equatorial c1 c2
  else Ok (alpha, delta).

(** Step 2: the hub to the destination. *)
Definition _paso_2 (alpha delta : F) (destino : string) (ctx : contexto)
    : result (F * F) :=
  if String.eqb destino Sistema.ECUATORIAL then Ok (alpha, delta)
  else if String.eqb destino Sistema.HORARIO then
    _validar_ctx ctx ["TS"] destino;;
    f ← utils.getattr "normalize_rad";
    TS ← item ctx "TS";
    H ← utils.aplica_angulo f (TS - alpha);
    Ok (H, delta)
  else if String.eqb destino Sistema.HORIZONTAL then
    _validar_ctx ctx ["phi"; "TS"] destino;;
    f ← utils.getattr "normalize_rad";
    TS ← item ctx "TS";
    H ← utils.aplica_angulo f (TS - alpha);
    phi ← item ctx "phi";
    _horary_to_horizontal H delta phi
  else if String.eqb destino Sistema.ECLIPTICO then
    let eps := default constants.EPSILON_J2000 (ctx !! "epsilon") in
    _equatorial_to_ecliptic alpha delta eps
  else if String.eqb destino Sistema.GALACTICO then
    _equatorial_to_galactic alpha delta
  else Err (ValueError (SistemaDestinoNoSoportado destino)).

(** [_nucleo_transformacion(c1, c2, origen, destino, ctx)] *)
Definition _nucleo_transformacion (c1 c2 : F) (origen destino : string)
    (ctx : contexto) : result (F * F) :=
  if String.eqb origen destino then Ok (c1, c2)
  else
    '(alpha, delta) ← _paso_1 c1 c2 origen ctx;
    _paso_2 alpha delta destino ctx.

(** *** The public entry point *)

(** [x in [Sistema.HORARIO, Sistema.ECUATORIAL]] *)
Definition es_tiempo_de (sistema : string) : bool :=
  existsb (String.eqb sistema) [Sistema.HORARIO; Sistema.ECUATORIAL].

(** [transformar(c1, c2, origen, destino, unidad_in, unidad_out, **kwargs)] *)
Definition transformar (c1 c2 : entrada) (origen destino : string)
    (unidad_in unidad_out : string) (kwargs : contexto)
    : result (salida * salida) :=
  let ctx := _normalizar_contexto kwargs in
  val1_rad ← _input_a_rad c1 unidad_in (es_tiempo_de origen);
  val2_rad ← _input_a_rad c2 unidad_in false;
  let val2_rad :=
    if String.eqb origen Sistema.HORIZONTAL
    then np_pi / lit 2 - val2_rad else val2_rad in
  '(out1_rad, out2_rad) ← _nucleo_transformacion val1_rad val2_rad origen destino ctx;
  let out2_rad :=
    if String.eqb destino Sistema.HORIZONTAL
    then np_pi / lit 2 - out2_rad else out2_rad in
  let es_tiempo_salida := es_tiempo_de destino in
  res1 ← _rad_a_output out1_rad unidad_out es_tiempo_salida;
  res2 ← _rad_a_output out2_rad unidad_out false;
  Ok (res1, res2).

(** The round trip of the specification: there, and back with the units
    swapped.  What comes back from the first call is a float for the
    scalar units and a triple for DMS and HMS. *)
Definition de_salida (r : salida) : entrada :=
  match r with
  | Valor x => Num x
  | Triple (d, m, s) => Terna (utils.of_int d) (utils.of_int m) s
  end.

Definition ida_y_vuelta (c1 c2 : entrada) (S1 S2 u u' : string)
    (kwargs : contexto) : result (salida * salida) :=
  '(r1, r2) ← transformar c1 c2 S1 S2 u u' kwargs;
  transformar (de_salida r1) (de_salida r2) S2 S1 u' u kwargs.
End Coordinates.
Arguments entrada : clear implicits.
Arguments salida : clear implicits.
End coordinates.

(** ** Exact real arithmetic

    The instance on which magnitudes are compared: every float is read as
    the real number it stands for and every operation as the exact one. *)
Module Real.
Local Open Scope R_scope.

(** [x % y] of Python: the remainder has the sign of the divisor.  In exact
    arithmetic it is strictly below a positive divisor; the remainder of
    two floats can round to the divisor itself. *)
Definition Rmod (x y : R) : R := x - y * IZR (Zfloor (x / y)).

(** [int(x)] *)
Definition Rtrunc (x : R) : Z :=
  if Rle_dec 0 x then Zfloor x else (- Zfloor (- x))%Z.

Definition Rsign (x : R) : R :=
  if Rlt_dec x 0 then -1 else if Rlt_dec 0 x then 1 else 0.

Definition Reqb (x y : R) : bool := if Req_dec_T x y then true else false.
Definition Rleb (x y : R) : bool := if Rle_dec x y then true else false.

(** [np.arctan2(y, x)]: the angle of the point [(x, y)] in [(-pi, pi]]. *)
Definition atan2 (y x : R) : R :=
  if Rlt_dec 0 x then atan (y / x)
  else if Rlt_dec x 0 then
    if Rle_dec 0 y then atan (y / x) + PI else atan (y / x) - PI
  else if Rlt_dec 0 y then PI / 2
  else if Rlt_dec y 0 then - (PI / 2)
  else 0.

(** [np.clip(x, lo, hi)] is [minimum(maximum(x, lo), hi)]. *)
Definition clip (x lo hi : R) : R := Rmin (Rmax x lo) hi.

(** The exact instance.  [asin] and [acos] are the total functions of the
    Standard Library, which continue the inverse functions by their boundary
    values outside [[-1, 1]], where numpy gives [nan]: the statements below
    evaluate them inside [[-1, 1]] only. *)
#[global] Instance numpy : NumPy R := {|
  lit := Q2R;
  fadd := Rplus;
  fsub := Rminus;
  fmul := Rmult;
  fdiv := Rdiv;
  fneg := Ropp;
  fmod := Rmod;
  feqb := Reqb;
  fleb := Rleb;
  int_ := Rtrunc;
  np_pi := PI;
  np_abs := Rabs;
  np_sign := Rsign;
  np_radians := fun x => x * (PI / 180);
  np_degrees := fun x => x * (180 / PI);
  np_sin := sin;
  np_cos := cos;
  np_arcsin := asin;
  np_arccos := acos;
  np_arctan2 := atan2;
  np_clip := clip
|}.
End Real.

(** ** Vocabulary of the statements *)

(** How one leg of the router, for the system [s], can stop: at the lookup of
    [utils.normalize_rad], or at [_validar_ctx] for an absent key, which is
    [TS] for the hour-angle and horizontal systems and [phi] for the
    horizontal one. *)
Definition fallo_de_pierna {F : Type} (ctx : gmap string F) (s : string)
    (e : exn) : Prop :=
  e = utils.sin_atributo "normalize_rad"
  \/ exists k, ctx !! k = None /\ e = ValueError (FaltaParametro k s)
       /\ ((k = "TS" /\ (s = Sistema.HORARIO \/ s = Sistema.HORIZONTAL))
           \/ (k = "phi" /\ s = Sistema.HORIZONTAL)).

(** The shape a unit asks of a coordinate: a float for radians, degrees and
    hours, a triple for DMS and HMS. *)
Definition conforme {F : Type} `{NumPy F} (unidad : string)
    (val : coordinates.entrada F) : bool :=
  match val with
  | coordinates.Num _ =>
      existsb (String.eqb unidad) [Unidad.RAD; Unidad.DEG; Unidad.HOUR]
  | coordinates.Terna _ _ _ =>
      existsb (String.eqb unidad) [Unidad.DMS; Unidad.HMS]
  end.


(** Two contexts for the statements at concrete inputs: no parameter at all,
    and an observer at 0.7 rad of latitude at 1.3 rad of sidereal time. *)
Definition sin_contexto : gmap string R := ∅.
Definition observador : gmap string R := <["phi" := 0.7%R]> (<["TS" := 1.3%R]> ∅).

(** Keyword arguments that give the sidereal time twice, in hours and in
    degrees. *)
Definition dos_tiempos : gmap string R :=
  <["TS_h" := 5%R]> (<["TS_deg" := 90%R]> ∅).

(** * Properties *)

(** ** The namespace of [core/utils.py] *)

Section Generic.
Context {F : Type} `{NumPy F}.
Implicit Types (ctx kwargs : gmap string F).

Lemma getattr_normalize_rad :
  utils.getattr (F := F) "normalize_rad" = Err (utils.sin_atributo "normalize_rad").
Proof. reflexivity. Qed.

Lemma getattr_hms_to_rad :
  utils.getattr (F := F) "hms_to_rad" = Err (utils.sin_atributo "hms_to_rad").
Proof. reflexivity. Qed.

Lemma getattr_rad_to_dms :
  utils.getattr (F := F) "rad_to_dms" = Err (utils.sin_atributo "rad_to_dms").
Proof. reflexivity. Qed.

Lemma getattr_rad_to_hms :
  utils.getattr (F := F) "rad_to_hms" = Err (utils.sin_atributo "rad_to_hms").
Proof. reflexivity. Qed.

Lemma getattr_to_rad :
  utils.getattr (F := F) "to_rad" = Ok (utils.Compone utils.to_rad).
Proof. reflexivity. Qed.

(** The names the module defines are the four of the file. *)
Lemma namespace_names :
  map fst (utils.namespace (F := F))
  = ["to_rad"; "to_hms"; "to_dms"; "normalize_pi"].
Proof. reflexivity. Qed.

Lemma llama_angulo_normalize_rad (x : F) :
  utils.llama_angulo "normalize_rad" x = Err (utils.sin_atributo "normalize_rad").
Proof. reflexivity. Qed.

(** ** The spherical formulas stop at the call of the normaliser *)

Lemma _horizontal_to_horary_err (A z phi : F) :
  coordinates._horizontal_to_horary A z phi
  = Err (utils.sin_atributo "normalize_rad").
Proof. reflexivity. Qed.

Lemma _horary_to_horizontal_err (H0 delta phi : F) :
  coordinates._horary_to_horizontal H0 delta phi
  = Err (utils.sin_atributo "normalize_rad").
Proof. reflexivity. Qed.

Lemma _equatorial_to_ecliptic_err (alpha delta eps : F) :
  coordinates._equatorial_to_ecliptic alpha delta eps
  = Err (utils.sin_atributo "normalize_rad").
Proof. reflexivity. Qed.

Lemma _ecliptic_to_equatorial_err (lamb beta eps : F) :
  coordinates._ecliptic_to_equatorial lamb beta eps
  = Err (utils.sin_atributo "normalize_rad").
Proof. reflexivity. Qed.

Lemma _equatorial_to_galactic_err (alpha delta : F) :
  coordinates._equatorial_to_galactic alpha delta
  = Err (utils.sin_atributo "normalize_rad").
Proof. reflexivity. Qed.

Lemma _galactic_to_equatorial_err (l b : F) :
  coordinates._galactic_to_equatorial l b
  = Err (utils.sin_atributo "normalize_rad").
Proof. reflexivity. Qed.

(** ** The router *)

Lemma reconocido_cases (s : string) :
  Sistema.reconocido s = true ->
  s = Sistema.HORIZONTAL \/ s = Sistema.HORARIO \/ s = Sistema.ECUATORIAL
  \/ s = Sistema.ECLIPTICO \/ s = Sistema.GALACTICO.
Proof.
  unfold Sistema.reconocido, Sistema.todos. simpl.
  rewrite !orb_true_iff, !String.eqb_eq. intuition discriminate.
Qed.

Lemma _validar_ctx_ok ctx keys sistema :
  coordinates._validar_ctx ctx keys sistema = Ok tt
  <-> Forall (fun k => is_Some (ctx !! k)) keys.
Proof.
  induction keys as [|k keys IH]; simpl.
  - split; auto.
  - destruct (ctx !! k) as [v|] eqn:Hk.
    + rewrite IH. split.
      * intros Hks. constructor; eauto.
      * intros Hks. inversion Hks; auto.
    + split; [discriminate|].
      intros Hks. inversion Hks as [|? ? [v Hv] ?]. congruence.
Qed.

(** A failed validation names an absent key of the list and the system it
    was called for. *)
Lemma _validar_ctx_err ctx keys sistema e :
  coordinates._validar_ctx ctx keys sistema = Err e ->
  exists k, In k keys /\ ctx !! k = None
            /\ e = ValueError (FaltaParametro k sistema).
Proof.
  induction keys as [|k keys IH]; simpl; [discriminate|].
  destruct (ctx !! k) as [v|] eqn:Hk.
  - intros He. destruct (IH He) as (k' & Hin & Hnone & ->). eauto 6.
  - intros [= <-]. eauto 6.
Qed.

Lemma _validar_ctx_total ctx keys sistema :
  coordinates._validar_ctx ctx keys sistema = Ok tt
  \/ exists k, In k keys /\ ctx !! k = None
      /\ coordinates._validar_ctx ctx keys sistema
         = Err (ValueError (FaltaParametro k sistema)).
Proof.
  destruct (coordinates._validar_ctx ctx keys sistema) as [[]|e] eqn:Hv; auto.
  right. destruct (_validar_ctx_err _ _ _ _ Hv) as (k & ? & ? & ->). eauto.
Qed.

(** Every way the first step can stop. *)
Lemma _paso_1_err (c1 c2 : F) origen ctx e :
  coordinates._paso_1 c1 c2 origen ctx = Err e -> fallo_de_pierna ctx origen e.
Proof.
  unfold coordinates._paso_1.
  destruct (String.eqb origen Sistema.ECUATORIAL) eqn:E1; [discriminate|].
  destruct (String.eqb origen Sistema.HORARIO) eqn:E2.
  { apply String.eqb_eq in E2; subst. simpl.
    destruct (ctx !! "TS") eqn:HTS; simpl; intros [= <-].
    - by left.
    - right. exists "TS". eauto 8. }
  destruct (String.eqb origen Sistema.HORIZONTAL) eqn:E3.
  { apply String.eqb_eq in E3; subst. simpl.
    destruct (ctx !! "phi") eqn:Hphi; simpl.
    - destruct (ctx !! "TS") eqn:HTS; simpl.
      + unfold coordinates.item. rewrite Hphi. simpl. intros [= <-]. by left.
      + intros [= <-]. right. exists "TS". eauto 8.
    - intros [= <-]. right. exists "phi". eauto 8. }
  destruct (String.eqb origen Sistema.ECLIPTICO) eqn:E4.
  { rewrite _ecliptic_to_equatorial_err. intros [= <-]. by left. }
  destruct (String.eqb origen Sistema.GALACTICO) eqn:E5.
  { rewrite _galactic_to_equatorial_err. intros [= <-]. by left. }
  discriminate.
Qed.

(** A recognised origin other than the hub never gets through the first
    step. *)
Lemma _paso_1_spoke (c1 c2 : F) origen ctx :
  Sistema.reconocido origen = true -> origen <> Sistema.ECUATORIAL ->
  exists e, coordinates._paso_1 c1 c2 origen ctx = Err e.
Proof.
  intros Hrec Hne.
  destruct (reconocido_cases _ Hrec) as [-> | [-> | [-> | [-> | ->]]]];
    try congruence; unfold coordinates._paso_1; simpl.
  - destruct (ctx !! "phi") eqn:Hphi; simpl; [|eauto].
    destruct (ctx !! "TS") eqn:HTS; simpl; [|eauto].
    unfold coordinates.item. rewrite Hphi. simpl. eauto.
  - destruct (ctx !! "TS") eqn:HTS; simpl; eauto.
  - eauto.
  - eauto.
Qed.

(** The unrecognised origin: the hub pair keeps its initial value. *)
Lemma _paso_1_unrecognised (c1 c2 : F) origen ctx :
  Sistema.reconocido origen = false ->
  coordinates._paso_1 c1 c2 origen ctx = Ok (lit 0.0, lit 0.0).
Proof.
  unfold Sistema.reconocido, Sistema.todos. simpl.
  rewrite !orb_false_iff. intros (E1 & E2 & E3 & E4 & E5 & _).
  unfold coordinates._paso_1. by rewrite E1, E2, E3, E4, E5.
Qed.

(** Every way the second step can stop. *)
Lemma _paso_2_err (alpha delta : F) destino ctx e :
  coordinates._paso_2 alpha delta destino ctx = Err e ->
  fallo_de_pierna ctx destino e
  \/ (Sistema.reconocido destino = false
      /\ e = ValueError (SistemaDestinoNoSoportado destino)).
Proof.
  unfold coordinates._paso_2.
  destruct (String.eqb destino Sistema.ECUATORIAL) eqn:E1; [discriminate|].
  destruct (String.eqb destino Sistema.HORARIO) eqn:E2.
  { apply String.eqb_eq in E2; subst. simpl.
    destruct (ctx !! "TS") eqn:HTS; simpl; intros [= <-]; left.
    - by left.
    - right. exists "TS". eauto 8. }
  destruct (String.eqb destino Sistema.HORIZONTAL) eqn:E3.
  { apply String.eqb_eq in E3; subst. simpl.
    destruct (ctx !! "phi") eqn:Hphi; simpl.
    - destruct (ctx !! "TS") eqn:HTS; simpl; intros [= <-]; left.
      + by left.
      + right. exists "TS". eauto 8.
    - intros [= <-]. left. right. exists "phi". eauto 8. }
  destruct (String.eqb destino Sistema.ECLIPTICO) eqn:E4.
  { rewrite _equatorial_to_ecliptic_err. intros [= <-]. left. by left. }
  destruct (String.eqb destino Sistema.GALACTICO) eqn:E5.
  { rewrite _equatorial_to_galactic_err. intros [= <-]. left. by left. }
  intros [= <-]. right. split; [|done].
  unfold Sistema.reconocido, Sistema.todos. simpl.
  by rewrite E1, E2, E3, E4, E5.
Qed.

Lemma _paso_2_spoke (alpha delta : F) destino ctx :
  Sistema.reconocido destino = true -> destino <> Sistema.ECUATORIAL ->
  exists e, coordinates._paso_2 alpha delta destino ctx = Err e.
Proof.
  intros Hrec Hne.
  destruct (reconocido_cases _ Hrec) as [-> | [-> | [-> | [-> | ->]]]];
    try congruence; unfold coordinates._paso_2; simpl.
  - destruct (ctx !! "phi") eqn:Hphi; simpl; [|eauto].
    destruct (ctx !! "TS") eqn:HTS; simpl; eauto.
  - destruct (ctx !! "TS") eqn:HTS; simpl; eauto.
  - eauto.
  - eauto.
Qed.

Lemma _paso_2_hub (alpha delta : F) ctx :
  coordinates._paso_2 alpha delta Sistema.ECUATORIAL ctx = Ok (alpha, delta).
Proof. reflexivity. Qed.

Lemma _paso_1_hub (c1 c2 : F) ctx :
  coordinates._paso_1 c1 c2 Sistema.ECUATORIAL ctx = Ok (c1, c2).
Proof. reflexivity. Qed.

Lemma _nucleo_same (c1 c2 : F) s ctx :
  coordinates._nucleo_transformacion c1 c2 s s ctx = Ok (c1, c2).
Proof.
  unfold coordinates._nucleo_transformacion. by rewrite String.eqb_refl.
Qed.

Lemma _nucleo_distinct (c1 c2 : F) origen destino ctx :
  origen <> destino ->
  coordinates._nucleo_transformacion c1 c2 origen destino ctx
  = '(alpha, delta) ← coordinates._paso_1 c1 c2 origen ctx;
    coordinates._paso_2 alpha delta destino ctx.
Proof.
  intros Hne. unfold coordinates._nucleo_transformacion.
  apply String.eqb_neq in Hne. by rewrite Hne.
Qed.

(** Two distinct recognised systems: the router stops with an exception,
    and the exception is one of a leg. *)
Lemma _nucleo_distinct_err (c1 c2 : F) origen destino ctx :
  Sistema.reconocido origen = true -> Sistema.reconocido destino = true ->
  origen <> destino ->
  exists e, coordinates._nucleo_transformacion c1 c2 origen destino ctx = Err e
            /\ (fallo_de_pierna ctx origen e \/ fallo_de_pierna ctx destino e).
Proof.
  intros Ho Hd Hne. rewrite _nucleo_distinct by done.
  destruct (decide (origen = Sistema.ECUATORIAL)) as [->|Hoe].
  - rewrite _paso_1_hub. simpl.
    destruct (_paso_2_spoke c1 c2 destino ctx Hd) as [e He]; [congruence|].
    exists e. split; [done|]. right.
    destruct (_paso_2_err _ _ _ _ _ He) as [?|[Hrec _]]; [done|congruence].
  - destruct (_paso_1_spoke c1 c2 origen ctx Ho Hoe) as [e He].
    exists e. rewrite He. split; [done|]. left. by eapply _paso_1_err.
Qed.

(** ** Ingress and egress *)

Lemma reconocida_cases (u : string) :
  Unidad.reconocida u = true ->
  u = Unidad.RAD \/ u = Unidad.DEG \/ u = Unidad.HOUR
  \/ u = Unidad.DMS \/ u = Unidad.HMS.
Proof.
  unfold Unidad.reconocida, Unidad.todas. simpl.
  rewrite !orb_true_iff, !String.eqb_eq. intuition discriminate.
Qed.

(** A coordinate of the shape of its unit is converted, except under HMS,
    whose function the module lacks. *)
Lemma _input_a_rad_conforme (val : coordinates.entrada F) unidad t :
  conforme unidad val = true ->
  (unidad <> Unidad.HMS /\ exists v, coordinates._input_a_rad val unidad t = Ok v)
  \/ (unidad = Unidad.HMS
      /\ coordinates._input_a_rad val unidad t
         = Err (utils.sin_atributo "hms_to_rad")).
Proof.
  destruct val as [x|a b c]; simpl; rewrite !orb_true_iff, !String.eqb_eq;
    intros Hu; repeat destruct Hu as [Hu|Hu]; try discriminate; subst;
    try (left; split; [discriminate|]; eexists; reflexivity);
    right; split; reflexivity.
Qed.

Lemma _input_a_rad_unknown (val : coordinates.entrada F) unidad t :
  Unidad.reconocida unidad = false ->
  coordinates._input_a_rad val unidad t
  = Err (ValueError (UnidadEntradaDesconocida unidad)).
Proof.
  unfold Unidad.reconocida, Unidad.todas. simpl.
  rewrite !orb_false_iff. intros (E1 & E2 & E3 & E4 & E5 & _).
  unfold coordinates._input_a_rad. by rewrite E1, E2, E3, E4, E5.
Qed.

Lemma _rad_a_output_scalar (x : F) unidad t :
  In unidad [Unidad.RAD; Unidad.DEG; Unidad.HOUR] ->
  exists y, coordinates._rad_a_output x unidad t = Ok (coordinates.Valor y).
Proof.
  simpl. intros [<-|[<-|[<-|[]]]]; eexists; reflexivity.
Qed.

Lemma _rad_a_output_dms (x : F) t :
  coordinates._rad_a_output x Unidad.DMS t = Err (utils.sin_atributo "rad_to_dms").
Proof. reflexivity. Qed.

Lemma _rad_a_output_hms (x : F) t :
  coordinates._rad_a_output x Unidad.HMS t = Err (utils.sin_atributo "rad_to_hms").
Proof. reflexivity. Qed.

Lemma _rad_a_output_unknown (x : F) unidad t :
  Unidad.reconocida unidad = false ->
  coordinates._rad_a_output x unidad t
  = Err (ValueError (UnidadSalidaDesconocida unidad)).
Proof.
  unfold Unidad.reconocida, Unidad.todas. simpl.
  rewrite !orb_false_iff. intros (E1 & E2 & E3 & E4 & E5 & _).
  unfold coordinates._rad_a_output. by rewrite E1, E2, E3, E4, E5.
Qed.

(** The egress stops only for the two missing functions or an unknown
    unit. *)
Lemma _rad_a_output_err (x : F) unidad t e :
  coordinates._rad_a_output x unidad t = Err e ->
  (unidad = Unidad.DMS /\ e = utils.sin_atributo "rad_to_dms")
  \/ (unidad = Unidad.HMS /\ e = utils.sin_atributo "rad_to_hms")
  \/ (Unidad.reconocida unidad = false
      /\ e = ValueError (UnidadSalidaDesconocida unidad)).
Proof.
  unfold coordinates._rad_a_output.
  destruct (String.eqb unidad Unidad.RAD) eqn:E1; [discriminate|].
  destruct (String.eqb unidad Unidad.DEG) eqn:E2; [discriminate|].
  destruct (String.eqb unidad Unidad.HOUR) eqn:E3; [discriminate|].
  destruct (String.eqb unidad Unidad.DMS) eqn:E4.
  { apply String.eqb_eq in E4; subst. intros [= <-]. by left. }
  destruct (String.eqb unidad Unidad.HMS) eqn:E5.
  { apply String.eqb_eq in E5; subst. intros [= <-]. right. by left. }
  intros [= <-]. right. right. split; [|done].
  unfold Unidad.reconocida, Unidad.todas. simpl.
  by rewrite E1, E2, E3, E4, E5.
Qed.

(** ** The context resolver adds [phi] and [TS] only from their suffixed
    keys *)

Ltac resuelve_contexto :=
  unfold coordinates._normalizar_contexto;
  repeat match goal with
    | |- context [match ?m !! ?k with _ => _ end] =>
        let E := fresh "E" in destruct (m !! k) eqn:E
    end;
  simplify_map_eq; intuition congruence.

Lemma _normalizar_contexto_TS kwargs :
  coordinates._normalizar_contexto kwargs !! "TS" = None
  <-> kwargs !! "TS" = None /\ kwargs !! "TS_h" = None
      /\ kwargs !! "TS_deg" = None.
Proof. resuelve_contexto. Qed.

Lemma _normalizar_contexto_phi kwargs :
  coordinates._normalizar_contexto kwargs !! "phi" = None
  <-> kwargs !! "phi" = None /\ kwargs !! "phi_deg" = None.
Proof. resuelve_contexto. Qed.

(** A context given in canonical keys only is left as it is. *)
Lemma _normalizar_contexto_canonical kwargs :
  kwargs !! "phi_deg" = None -> kwargs !! "TS_h" = None ->
  kwargs !! "TS_deg" = None -> kwargs !! "epsilon_deg" = None ->
  coordinates._normalizar_contexto kwargs = kwargs.
Proof.
  intros H1 H2 H3 H4. unfold coordinates._normalizar_contexto.
  by rewrite H1, H2, H3, H4.
Qed.

(** ** The entry point *)

(** With both coordinates converted, [transformar] is the router between
    the two complements, then the egress. *)
Lemma transformar_ingress (c1 c2 : coordinates.entrada F) origen destino
    unidad_in unidad_out kwargs (v1 v2 : F) :
  coordinates._input_a_rad c1 unidad_in (coordinates.es_tiempo_de origen) = Ok v1 ->
  coordinates._input_a_rad c2 unidad_in false = Ok v2 ->
  coordinates.transformar c1 c2 origen destino unidad_in unidad_out kwargs
  = ('(out1, out2) ←
       coordinates._nucleo_transformacion v1
         (if String.eqb origen Sistema.HORIZONTAL
          then (np_pi / lit 2 - v2)%num else v2)
         origen destino (coordinates._normalizar_contexto kwargs);
     res1 ← coordinates._rad_a_output out1 unidad_out
              (coordinates.es_tiempo_de destino);
     res2 ← coordinates._rad_a_output
              (if String.eqb destino Sistema.HORIZONTAL
               then (np_pi / lit 2 - out2)%num else out2)
              unidad_out false;
     Ok (res1, res2)).
Proof.
  intros H1 H2. unfold coordinates.transformar. rewrite H1. simpl.
  rewrite H2. reflexivity.
Qed.

(** With [phi] and [TS] in the context a leg can only stop at the lookup of
    the normaliser. *)
Lemma fallo_de_pierna_keys ctx s e :
  fallo_de_pierna ctx s e ->
  is_Some (ctx !! "phi") -> is_Some (ctx !! "TS") ->
  e = utils.sin_atributo "normalize_rad".
Proof.
  intros [->|(k & Hk & _ & [[-> _]|[-> _]])] [p Hp] [t Ht]; congruence.
Qed.

(** For two distinct recognised systems and radian units [transformar]
    returns nothing, in any arithmetic: it stops with the exception of one of
    the two legs of the router, which is the [AttributeError] for
    [utils.normalize_rad] as soon as [phi] and [TS] are in the context. *)
Lemma transformar_distinct_err (c1 c2 : F) origen destino kwargs :
  Sistema.reconocido origen = true -> Sistema.reconocido destino = true ->
  origen <> destino ->
  let ctx := coordinates._normalizar_contexto kwargs in
  exists e,
    coordinates.transformar (coordinates.Num c1) (coordinates.Num c2)
      origen destino Unidad.RAD Unidad.RAD kwargs = Err e
    /\ (fallo_de_pierna ctx origen e \/ fallo_de_pierna ctx destino e)
    /\ (is_Some (ctx !! "phi") -> is_Some (ctx !! "TS") ->
        e = utils.sin_atributo "normalize_rad").
Proof.
  intros Ho Hd Hne ctx.
  erewrite transformar_ingress by reflexivity.
  destruct (_nucleo_distinct_err c1
              (if String.eqb origen Sistema.HORIZONTAL
               then (np_pi / lit 2 - c2)%num else c2)
              origen destino ctx Ho Hd Hne) as (e & He & Hleg).
  exists e. fold ctx. rewrite He. split; [reflexivity|]. split; [done|].
  intros Hphi HTS. destruct Hleg; by eapply fallo_de_pierna_keys.
Qed.

(** C1. The round trip between two distinct recognised systems returns
    nothing, whatever the units: its first call already stops, at the
    lookup of a function [core/utils.py] lacks ([hms_to_rad] at the ingress
    or [normalize_rad] in a leg) or at a missing context key. *)
Theorem ida_y_vuelta_raises (c1 c2 : coordinates.entrada F) S1 S2 u u' kwargs :
  Sistema.reconocido S1 = true -> Sistema.reconocido S2 = true -> S1 <> S2 ->
  conforme u c1 = true -> conforme u c2 = true ->
  let ctx := coordinates._normalizar_contexto kwargs in
  exists e,
    coordinates.transformar c1 c2 S1 S2 u u' kwargs = Err e
    /\ coordinates.ida_y_vuelta c1 c2 S1 S2 u u' kwargs = Err e
    /\ (e = utils.sin_atributo "hms_to_rad"
        \/ fallo_de_pierna ctx S1 e \/ fallo_de_pierna ctx S2 e).
Proof.
  intros Ho Hd Hne Hc1 Hc2 ctx.
  assert (Hfirst : exists e,
    coordinates.transformar c1 c2 S1 S2 u u' kwargs = Err e
    /\ (e = utils.sin_atributo "hms_to_rad"
        \/ fallo_de_pierna ctx S1 e \/ fallo_de_pierna ctx S2 e)).
  { destruct (_input_a_rad_conforme c1 u (coordinates.es_tiempo_de S1) Hc1)
      as [[Hu [v1 Hv1]]|[-> Hv1]].
    - destruct (_input_a_rad_conforme c2 u false Hc2)
        as [[_ [v2 Hv2]]|[-> _]]; [|done].
      erewrite transformar_ingress by eassumption.
      destruct (_nucleo_distinct_err v1
                  (if String.eqb S1 Sistema.HORIZONTAL
                   then (np_pi / lit 2 - v2)%num else v2)
                  S1 S2 ctx Ho Hd Hne) as (e & He & Hleg).
      exists e. fold ctx. rewrite He. split; [reflexivity|]. by right.
    - exists (utils.sin_atributo "hms_to_rad"). split; [|by left].
      unfold coordinates.transformar. by rewrite Hv1. }
  destruct Hfirst as (e & He & Hkind). exists e. split; [done|]. split; [|done].
  unfold coordinates.ida_y_vuelta. by rewrite He.
Qed.

(** C7. No function of the transform library returns a longitude: each one
    computes its two angles and stops at the lookup of
    [utils.normalize_rad]. *)
Theorem library_stops_at_normalize_rad (a b c : F) :
  coordinates._horizontal_to_horary a b c = Err (utils.sin_atributo "normalize_rad")
  /\ coordinates._horary_to_horizontal a b c = Err (utils.sin_atributo "normalize_rad")
  /\ coordinates._equatorial_to_ecliptic a b c = Err (utils.sin_atributo "normalize_rad")
  /\ coordinates._ecliptic_to_equatorial a b c = Err (utils.sin_atributo "normalize_rad")
  /\ coordinates._equatorial_to_galactic a b = Err (utils.sin_atributo "normalize_rad")
  /\ coordinates._galactic_to_equatorial a b = Err (utils.sin_atributo "normalize_rad").
Proof. repeat split. Qed.

(** C6. The clamp is in each of the six formulas: the latitude, or the
    zenith distance, is the inverse sine, or cosine, of [np.clip(S, -1, 1)],
    [S] being the combination of sines and cosines the formula computes.
    But the angle of the boundary is never the result of a call: having
    computed it, each function stops at the lookup of
    [utils.normalize_rad], at a declination of [np.pi/2] as anywhere else,
    and so does [transformar] from the equatorial system to the ecliptic
    or the galactic one. *)
Theorem clamped_angle_not_returned (a b c : F) kwargs :
  let pole := (np_pi / lit 2)%num in
  let clamp := fun S : F => np_clip S (lit (-1)) (lit 1) in
  (snd (coordinates._horizontal_to_horary_formula a b c)
   = np_arcsin (clamp (coordinates._horizontal_to_horary_sin_delta a b c))
   /\ snd (coordinates._horary_to_horizontal_formula a b c)
      = np_arccos (clamp (coordinates._horary_to_horizontal_cos_z a b c))
   /\ snd (coordinates._equatorial_to_ecliptic_formula a b c)
      = np_arcsin (clamp (coordinates._equatorial_to_ecliptic_sin_b a b c))
   /\ snd (coordinates._ecliptic_to_equatorial_formula a b c)
      = np_arcsin (clamp (coordinates._ecliptic_to_equatorial_sin_d a b c))
   /\ snd (coordinates._equatorial_to_galactic_formula a b)
      = np_arcsin (clamp (coordinates._equatorial_to_galactic_sin_b a b))
   /\ snd (coordinates._galactic_to_equatorial_formula a b)
      = np_arcsin (clamp (coordinates._galactic_to_equatorial_sin_d a b)))
  /\ (forall r : F * F,
        coordinates._horizontal_to_horary a b c <> Ok r
        /\ coordinates._horary_to_horizontal a b c <> Ok r
        /\ coordinates._equatorial_to_ecliptic a b c <> Ok r
        /\ coordinates._ecliptic_to_equatorial a b c <> Ok r
        /\ coordinates._equatorial_to_galactic a b <> Ok r
        /\ coordinates._galactic_to_equatorial a b <> Ok r)
  /\ (coordinates._horary_to_horizontal a pole c
      = Err (utils.sin_atributo "normalize_rad")
      /\ coordinates._equatorial_to_ecliptic a pole c
         = Err (utils.sin_atributo "normalize_rad")
      /\ coordinates._equatorial_to_galactic a pole
         = Err (utils.sin_atributo "normalize_rad"))
  /\ (forall destino,
        destino = Sistema.ECLIPTICO \/ destino = Sistema.GALACTICO ->
        coordinates.transformar (coordinates.Num a) (coordinates.Num pole)
          Sistema.ECUATORIAL destino Unidad.RAD Unidad.RAD kwargs
        = Err (utils.sin_atributo "normalize_rad")).
Proof.
  intros pole clamp. split; [|split; [|split]].
  - repeat split.
  - intros r. repeat split; discriminate.
  - repeat split.
  - intros destino Hd. erewrite transformar_ingress by reflexivity.
    destruct Hd as [-> | ->]; reflexivity.
Qed.

(** C5. An origin tag outside the five systems is not refused: towards the
    equatorial system the router returns the pair [(0.0, 0.0)] the hub
    starts from, and so does [transformar]; towards the same unknown tag it
    returns the input. *)
Theorem nucleo_unrecognised_origin (c1 c2 : F) origen kwargs :
  Sistema.reconocido origen = false ->
  let ctx := coordinates._normalizar_contexto kwargs in
  coordinates._nucleo_transformacion c1 c2 origen Sistema.ECUATORIAL ctx
  = Ok (lit 0.0, lit 0.0)
  /\ coordinates._nucleo_transformacion c1 c2 origen origen ctx = Ok (c1, c2)
  /\ coordinates.transformar (coordinates.Num c1) (coordinates.Num c2)
       origen Sistema.ECUATORIAL Unidad.RAD Unidad.RAD kwargs
     = Ok (coordinates.Valor (lit 0.0), coordinates.Valor (lit 0.0)).
Proof.
  intros Hrec ctx.
  assert (Hne : origen <> Sistema.ECUATORIAL) by (intros ->; discriminate).
  assert (Hnh : String.eqb origen Sistema.HORIZONTAL = false).
  { apply String.eqb_neq. intros ->. discriminate. }
  split; [|split].
  - rewrite _nucleo_distinct by done. by rewrite _paso_1_unrecognised.
  - apply _nucleo_same.
  - erewrite transformar_ingress by reflexivity. rewrite Hnh.
    rewrite _nucleo_distinct by done. by rewrite _paso_1_unrecognised.
Qed.

(** Every way the router can stop: in a leg, or at the end of the second
    chain for a destination outside the five systems, once the first step
    has delivered the hub pair. *)
Lemma _nucleo_err (c1 c2 : F) origen destino ctx e :
  coordinates._nucleo_transformacion c1 c2 origen destino ctx = Err e ->
  fallo_de_pierna ctx origen e \/ fallo_de_pierna ctx destino e
  \/ (Sistema.reconocido destino = false
      /\ e = ValueError (SistemaDestinoNoSoportado destino)
      /\ exists alpha delta,
           coordinates._paso_1 c1 c2 origen ctx = Ok (alpha, delta)).
Proof.
  unfold coordinates._nucleo_transformacion.
  destruct (String.eqb origen destino); [discriminate|].
  destruct (coordinates._paso_1 c1 c2 origen ctx) as [[alpha delta]|e1] eqn:H1;
    simpl.
  - intros H2. destruct (_paso_2_err _ _ _ _ _ H2) as [?|[? ?]]; eauto 8.
  - intros [= <-]. left. by eapply _paso_1_err.
Qed.

Lemma fallo_de_pierna_missing ctx s k s' :
  fallo_de_pierna ctx s (ValueError (FaltaParametro k s')) ->
  s' = s /\ ctx !! k = None
  /\ ((k = "TS" /\ (s = Sistema.HORARIO \/ s = Sistema.HORIZONTAL))
      \/ (k = "phi" /\ s = Sistema.HORIZONTAL)).
Proof.
  intros [Habs|(k' & Hk & [= -> ->] & Hcase)]; [discriminate|done].
Qed.

Lemma _nucleo_horario_sin_TS (c1 c2 : F) ctx :
  ctx !! "TS" = None ->
  coordinates._nucleo_transformacion c1 c2 Sistema.HORARIO Sistema.ECUATORIAL ctx
  = Err (ValueError (FaltaParametro "TS" Sistema.HORARIO)).
Proof.
  intros HTS. unfold coordinates._nucleo_transformacion, coordinates._paso_1.
  simpl. by rewrite HTS.
Qed.

(** C4. Hour-angle to equatorial without [TS] stops with the
    missing-parameter error for the key [TS] and the system [horario], in
    the router and through [transformar]; and whenever the router stops
    with a missing-parameter error, the key is absent from the context, the
    system named is an endpoint, and the pair is [TS] with the hour-angle
    or horizontal system or [phi] with the horizontal one: no leg of the
    equatorial, ecliptic and galactic systems asks for a key. *)
Theorem nucleo_missing_parameter (c1 c2 : F) origen destino ctx :
  (origen = Sistema.HORARIO -> destino = Sistema.ECUATORIAL ->
   ctx !! "TS" = None ->
   coordinates._nucleo_transformacion c1 c2 origen destino ctx
   = Err (ValueError (FaltaParametro "TS" "horario"))
   /\ texto (FaltaParametro "TS" "horario")
      = "Falta parámetro 'TS' para el sistema horario"
   /\ forall (e1 e2 : coordinates.entrada F) u u' kwargs v1 v2,
        coordinates._input_a_rad e1 u true = Ok v1 ->
        coordinates._input_a_rad e2 u false = Ok v2 ->
        coordinates._normalizar_contexto kwargs !! "TS" = None ->
        coordinates.transformar e1 e2 origen destino u u' kwargs
        = Err (ValueError (FaltaParametro "TS" "horario")))
  /\ (forall k s,
        coordinates._nucleo_transformacion c1 c2 origen destino ctx
        = Err (ValueError (FaltaParametro k s)) ->
        ctx !! k = None /\ (s = origen \/ s = destino)
        /\ ((k = "TS" /\ (s = Sistema.HORARIO \/ s = Sistema.HORIZONTAL))
            \/ (k = "phi" /\ s = Sistema.HORIZONTAL))).
Proof.
  split.
  - intros -> -> HTS. split; [by apply _nucleo_horario_sin_TS|].
    split; [reflexivity|].
    intros e1 e2 u u' kwargs v1 v2 H1 H2 Hk.
    erewrite transformar_ingress by eassumption. simpl.
    by rewrite _nucleo_horario_sin_TS.
  - intros k s Herr.
    destruct (_nucleo_err _ _ _ _ _ _ Herr) as [Hl|[Hl|(_ & Habs & _)]];
      [| |discriminate];
      destruct (fallo_de_pierna_missing _ _ _ _ Hl) as (-> & Hk & Hcase); eauto.
Qed.

Lemma transformar_same_system (c1 c2 : coordinates.entrada F) S u u' kwargs
    (v1 v2 : F) :
  coordinates._input_a_rad c1 u (coordinates.es_tiempo_de S) = Ok v1 ->
  coordinates._input_a_rad c2 u false = Ok v2 ->
  coordinates.transformar c1 c2 S S u u' kwargs
  = (res1 ← coordinates._rad_a_output v1 u' (coordinates.es_tiempo_de S);
     res2 ← coordinates._rad_a_output
              (if String.eqb S Sistema.HORIZONTAL
               then (np_pi / lit 2 - (np_pi / lit 2 - v2))%num else v2)
              u' false;
     Ok (res1, res2)).
Proof.
  intros H1 H2. erewrite transformar_ingress by eassumption.
  rewrite _nucleo_same. simpl. by destruct (String.eqb S Sistema.HORIZONTAL).
Qed.

(** C3. From a system to itself [transformar] returns nothing for the
    sexagesimal units: an HMS input stops at the lookup of
    [utils.hms_to_rad], and for any other input a DMS output stops at
    [utils.rad_to_dms] and an HMS output at [utils.rad_to_hms]. *)
Theorem transformar_same_system_sexagesimal (c1 c2 : coordinates.entrada F)
    S u kwargs :
  conforme u c1 = true -> conforme u c2 = true ->
  (u = Unidad.HMS ->
   forall u', coordinates.transformar c1 c2 S S u u' kwargs
              = Err (utils.sin_atributo "hms_to_rad"))
  /\ (u <> Unidad.HMS ->
      coordinates.transformar c1 c2 S S u Unidad.DMS kwargs
      = Err (utils.sin_atributo "rad_to_dms")
      /\ coordinates.transformar c1 c2 S S u Unidad.HMS kwargs
         = Err (utils.sin_atributo "rad_to_hms")).
Proof.
  intros Hc1 Hc2.
  destruct (_input_a_rad_conforme c1 u (coordinates.es_tiempo_de S) Hc1)
    as [[Hu [v1 Hv1]]|[-> Hv1]].
  - destruct (_input_a_rad_conforme c2 u false Hc2)
      as [[_ [v2 Hv2]]|[-> _]]; [|done].
    split; [done|]. intros _.
    split; erewrite transformar_same_system by eassumption; reflexivity.
  - split; [|done]. intros _ u'.
    unfold coordinates.transformar. by rewrite Hv1.
Qed.

(** Every way the ingress can stop. *)
Lemma _input_a_rad_err (val : coordinates.entrada F) unidad t e :
  coordinates._input_a_rad val unidad t = Err e ->
  e = NoModelado \/ e = TypeError \/ e = IndexError
  \/ e = utils.sin_atributo "hms_to_rad"
  \/ (Unidad.reconocida unidad = false
      /\ e = ValueError (UnidadEntradaDesconocida unidad)).
Proof.
  unfold coordinates._input_a_rad.
  destruct (String.eqb unidad Unidad.RAD) eqn:E1.
  { destruct val; intros [= <-]; auto. }
  destruct (String.eqb unidad Unidad.DEG) eqn:E2.
  { destruct val; intros [= <-]; auto. }
  destruct (String.eqb unidad Unidad.HOUR) eqn:E3.
  { destruct val; intros [= <-]; auto. }
  destruct (String.eqb unidad Unidad.DMS) eqn:E4.
  { destruct val; simpl; intros [= <-]; auto. }
  destruct (String.eqb unidad Unidad.HMS) eqn:E5.
  { destruct val; simpl; intros [= <-]; auto 6. }
  intros [= <-]. do 4 right. split; [|done].
  unfold Unidad.reconocida, Unidad.todas. simpl.
  by rewrite E1, E2, E3, E4, E5.
Qed.

(** Where [transformar] can stop: in the ingress of either coordinate, in
    the router on the converted pair, or in the egress of the pair the
    router returned. *)
Lemma transformar_err (c1 c2 : coordinates.entrada F) origen destino u u'
    kwargs e :
  coordinates.transformar c1 c2 origen destino u u' kwargs = Err e ->
  let ctx := coordinates._normalizar_contexto kwargs in
  coordinates._input_a_rad c1 u (coordinates.es_tiempo_de origen) = Err e
  \/ (exists v1,
        coordinates._input_a_rad c1 u (coordinates.es_tiempo_de origen) = Ok v1
        /\ (coordinates._input_a_rad c2 u false = Err e
            \/ exists v2,
                 coordinates._input_a_rad c2 u false = Ok v2
                 /\ let z := if String.eqb origen Sistema.HORIZONTAL
                             then (np_pi / lit 2 - v2)%num else v2 in
                    (coordinates._nucleo_transformacion v1 z origen destino ctx
                     = Err e
                     \/ exists out1 out2,
                          coordinates._nucleo_transformacion v1 z origen destino ctx
                          = Ok (out1, out2)
                          /\ exists x, coordinates._rad_a_output x u' false = Err e
                            \/ coordinates._rad_a_output x u'
                                 (coordinates.es_tiempo_de destino) = Err e))).
Proof.
  intros HT ctx.
  destruct (coordinates._input_a_rad c1 u (coordinates.es_tiempo_de origen))
    as [v1|e1] eqn:H1.
  2:{ left. unfold coordinates.transformar in HT. rewrite H1 in HT.
      simpl in HT. congruence. }
  right. exists v1. split; [done|].
  destruct (coordinates._input_a_rad c2 u false) as [v2|e2] eqn:H2.
  2:{ left. unfold coordinates.transformar in HT. rewrite H1 in HT.
      simpl in HT. rewrite H2 in HT. simpl in HT. congruence. }
  right. exists v2. split; [done|]. intros z.
  erewrite transformar_ingress in HT by eassumption. fold ctx z in HT.
  destruct (coordinates._nucleo_transformacion v1 z origen destino ctx)
    as [[out1 out2]|e3] eqn:H3; simpl in HT.
  2:{ left. congruence. }
  right. exists out1, out2. split; [done|].
  destruct (coordinates._rad_a_output out1 u' (coordinates.es_tiempo_de destino))
    as [r1|e4] eqn:H4; simpl in HT.
  2:{ exists out1. right. congruence. }
  match type of HT with
  | context [coordinates._rad_a_output ?x u' false] =>
      destruct (coordinates._rad_a_output x u' false) as [r2|e5] eqn:H5;
      simpl in HT; [discriminate|]; exists x; left; congruence
  end.
Qed.

(** ** Where each check sits *)

(** A leg validates its keys before anything else: without [phi] the
    horizontal legs stop for [phi], and without [TS] the hour-angle legs,
    and the horizontal ones once [phi] is there, stop for [TS]. *)
Lemma _paso_sin_phi (x y : F) ctx :
  ctx !! "phi" = None ->
  coordinates._paso_1 x y Sistema.HORIZONTAL ctx
  = Err (ValueError (FaltaParametro "phi" Sistema.HORIZONTAL))
  /\ coordinates._paso_2 x y Sistema.HORIZONTAL ctx
     = Err (ValueError (FaltaParametro "phi" Sistema.HORIZONTAL)).
Proof.
  intros Hphi. unfold coordinates._paso_1, coordinates._paso_2. simpl.
  by rewrite Hphi.
Qed.

Lemma _paso_sin_TS (x y : F) ctx :
  ctx !! "TS" = None ->
  coordinates._paso_1 x y Sistema.HORARIO ctx
  = Err (ValueError (FaltaParametro "TS" Sistema.HORARIO))
  /\ coordinates._paso_2 x y Sistema.HORARIO ctx
     = Err (ValueError (FaltaParametro "TS" Sistema.HORARIO))
  /\ (is_Some (ctx !! "phi") ->
      coordinates._paso_1 x y Sistema.HORIZONTAL ctx
      = Err (ValueError (FaltaParametro "TS" Sistema.HORIZONTAL))
      /\ coordinates._paso_2 x y Sistema.HORIZONTAL ctx
         = Err (ValueError (FaltaParametro "TS" Sistema.HORIZONTAL))).
Proof.
  intros HTS. unfold coordinates._paso_1, coordinates._paso_2. simpl.
  rewrite HTS. split; [done|]. split; [done|].
  intros [p ->]. split; reflexivity.
Qed.

Lemma _input_a_rad_escalar (c : F) u t :
  In u [Unidad.RAD; Unidad.DEG; Unidad.HOUR] ->
  exists v, coordinates._input_a_rad (coordinates.Num c) u t = Ok v.
Proof. simpl. intros [<-|[<-|[<-|[]]]]; eexists; reflexivity. Qed.

(** A call whose first step returns stops where the second step does. *)
Lemma transformar_paso_2 (c1 c2 : coordinates.entrada F) origen destino u u'
    kwargs (v1 v2 alpha delta : F) e :
  coordinates._input_a_rad c1 u (coordinates.es_tiempo_de origen) = Ok v1 ->
  coordinates._input_a_rad c2 u false = Ok v2 ->
  origen <> destino ->
  coordinates._paso_1 v1
    (if String.eqb origen Sistema.HORIZONTAL then (np_pi / lit 2 - v2)%num else v2)
    origen (coordinates._normalizar_contexto kwargs) = Ok (alpha, delta) ->
  coordinates._paso_2 alpha delta destino (coordinates._normalizar_contexto kwargs)
  = Err e ->
  coordinates.transformar c1 c2 origen destino u u' kwargs = Err e.
Proof.
  intros H1 H2 Hne Hp1 Hp2. erewrite transformar_ingress by eassumption.
  rewrite _nucleo_distinct by done. rewrite Hp1. simpl. by rewrite Hp2.
Qed.

(** A call whose first step stops, stops there. *)
Lemma transformar_paso_1 (c1 c2 : coordinates.entrada F) origen destino u u'
    kwargs (v1 v2 : F) e :
  coordinates._input_a_rad c1 u (coordinates.es_tiempo_de origen) = Ok v1 ->
  coordinates._input_a_rad c2 u false = Ok v2 ->
  origen <> destino ->
  coordinates._paso_1 v1
    (if String.eqb origen Sistema.HORIZONTAL then (np_pi / lit 2 - v2)%num else v2)
    origen (coordinates._normalizar_contexto kwargs) = Err e ->
  coordinates.transformar c1 c2 origen destino u u' kwargs = Err e.
Proof.
  intros H1 H2 Hne Hp1. erewrite transformar_ingress by eassumption.
  rewrite _nucleo_distinct by done. by rewrite Hp1.
Qed.

(** C9 as the code has it, for float coordinates.  Nothing is validated
    ahead of the computation: each check sits in the stage that needs it.
    The input unit is checked first, at the ingress.  A missing-parameter
    error names a key that the resolved context lacks, [phi] or [TS] and
    never [epsilon], and a system of the call.  [phi] and [TS] are not
    defaulted: between two different systems and for a scalar input unit,
    the leg of the origin stops for the key it needs and lacks, and so does
    the leg of the destination when the first step has nothing to compute.
    An unsupported destination is reported once the first step of the
    router has returned the hub pair, and an unknown output unit last, once
    the ingress and the router have returned. *)
Theorem transformar_checks (c1 c2 : F) origen destino u u' kwargs :
  let ctx := coordinates._normalizar_contexto kwargs in
  let T := coordinates.transformar (coordinates.Num c1) (coordinates.Num c2)
             origen destino u u' kwargs in
  (Unidad.reconocida u = false ->
   T = Err (ValueError (UnidadEntradaDesconocida u)))
  /\ (forall k s, T = Err (ValueError (FaltaParametro k s)) ->
       ctx !! k = None /\ (s = origen \/ s = destino)
       /\ ((k = "TS" /\ (s = Sistema.HORARIO \/ s = Sistema.HORIZONTAL))
           \/ (k = "phi" /\ s = Sistema.HORIZONTAL)))
  /\ (In u [Unidad.RAD; Unidad.DEG; Unidad.HOUR] -> origen <> destino ->
      (origen = Sistema.HORARIO -> ctx !! "TS" = None ->
       T = Err (ValueError (FaltaParametro "TS" Sistema.HORARIO)))
      /\ (origen = Sistema.HORIZONTAL -> ctx !! "phi" = None ->
          T = Err (ValueError (FaltaParametro "phi" Sistema.HORIZONTAL)))
      /\ (origen = Sistema.HORIZONTAL ->
          is_Some (ctx !! "phi") -> ctx !! "TS" = None ->
          T = Err (ValueError (FaltaParametro "TS" Sistema.HORIZONTAL)))
      /\ (origen = Sistema.ECUATORIAL \/ Sistema.reconocido origen = false ->
          (destino = Sistema.HORARIO -> ctx !! "TS" = None ->
           T = Err (ValueError (FaltaParametro "TS" Sistema.HORARIO)))
          /\ (destino = Sistema.HORIZONTAL -> ctx !! "phi" = None ->
              T = Err (ValueError (FaltaParametro "phi" Sistema.HORIZONTAL)))
          /\ (destino = Sistema.HORIZONTAL ->
              is_Some (ctx !! "phi") -> ctx !! "TS" = None ->
              T = Err (ValueError (FaltaParametro "TS" Sistema.HORIZONTAL)))))
  /\ (forall d, T = Err (ValueError (SistemaDestinoNoSoportado d)) ->
       d = destino /\ Sistema.reconocido destino = false
       /\ exists v1 v2 alpha delta,
            coordinates._input_a_rad (coordinates.Num c1) u
              (coordinates.es_tiempo_de origen) = Ok v1
            /\ coordinates._input_a_rad (coordinates.Num c2) u false = Ok v2
            /\ coordinates._paso_1 v1
                 (if String.eqb origen Sistema.HORIZONTAL
                  then (np_pi / lit 2 - v2)%num else v2) origen ctx
               = Ok (alpha, delta))
  /\ (forall w, T = Err (ValueError (UnidadSalidaDesconocida w)) ->
       w = u' /\ Unidad.reconocida u' = false
       /\ exists v1 v2 out1 out2,
            coordinates._input_a_rad (coordinates.Num c1) u
              (coordinates.es_tiempo_de origen) = Ok v1
            /\ coordinates._input_a_rad (coordinates.Num c2) u false = Ok v2
            /\ coordinates._nucleo_transformacion v1
                 (if String.eqb origen Sistema.HORIZONTAL
                  then (np_pi / lit 2 - v2)%num else v2) origen destino ctx
               = Ok (out1, out2)).
Proof.
  intros ctx T. split; [|split; [|split; [|split]]].
  - intros Hu. unfold T, coordinates.transformar.
    rewrite (_input_a_rad_unknown (coordinates.Num c1)) by done. reflexivity.
  - intros k s HT. apply transformar_err in HT.
    destruct HT as [H1|(v1 & H1 & [H2|(v2 & H2 & [H3|(o1 & o2 & H3 & x & [H4|H4])])])].
    + apply _input_a_rad_err in H1.
      destruct H1 as [?|[?|[?|[?|[_ ?]]]]]; discriminate.
    + apply _input_a_rad_err in H2.
      destruct H2 as [?|[?|[?|[?|[_ ?]]]]]; discriminate.
    + apply _nucleo_err in H3. destruct H3 as [Hl|[Hl|(_ & Habs & _)]];
        [| |discriminate];
        destruct (fallo_de_pierna_missing _ _ _ _ Hl) as (-> & Hk & Hcase); eauto.
    + apply _rad_a_output_err in H4.
      destruct H4 as [[_ ?]|[[_ ?]|[_ ?]]]; discriminate.
    + apply _rad_a_output_err in H4.
      destruct H4 as [[_ ?]|[[_ ?]|[_ ?]]]; discriminate.
  - intros Hu Hne.
    destruct (_input_a_rad_escalar c1 u (coordinates.es_tiempo_de origen) Hu)
      as [v1 H1].
    destruct (_input_a_rad_escalar c2 u false Hu) as [v2 H2].
    split; [|split; [|split]].
    + intros Ho HTS. eapply transformar_paso_1; [done..|]. rewrite Ho.
      by destruct (_paso_sin_TS v1 v2 ctx HTS) as (? & _).
    + intros Ho Hphi. eapply transformar_paso_1; [done..|]. rewrite Ho.
      by destruct (_paso_sin_phi v1 (np_pi / lit 2 - v2)%num ctx Hphi) as (? & _).
    + intros Ho Hphi HTS. eapply transformar_paso_1; [done..|]. rewrite Ho.
      destruct (_paso_sin_TS v1 (np_pi / lit 2 - v2)%num ctx HTS) as (_ & _ & Hh).
      by destruct (Hh Hphi) as (? & _).
    + intros Ho.
      assert (Hp1 : exists alpha delta,
        coordinates._paso_1 v1
          (if String.eqb origen Sistema.HORIZONTAL
           then (np_pi / lit 2 - v2)%num else v2) origen ctx = Ok (alpha, delta)).
      { destruct Ho as [->|Ho].
        - rewrite _paso_1_hub. eauto.
        - rewrite _paso_1_unrecognised by done. eauto. }
      destruct Hp1 as (alpha & delta & Hp1).
      split; [|split].
      * intros -> HTS. eapply transformar_paso_2; [done..|].
        by destruct (_paso_sin_TS alpha delta ctx HTS) as (_ & ? & _).
      * intros -> Hphi. eapply transformar_paso_2; [done..|].
        by destruct (_paso_sin_phi alpha delta ctx Hphi) as (_ & ?).
      * intros -> Hphi HTS. eapply transformar_paso_2; [done..|].
        destruct (_paso_sin_TS alpha delta ctx HTS) as (_ & _ & Hh).
        by destruct (Hh Hphi) as (_ & ?).
  - intros d HT. apply transformar_err in HT.
    destruct HT as [H1|(v1 & H1 & [H2|(v2 & H2 & [H3|(o1 & o2 & H3 & x & [H4|H4])])])].
    + apply _input_a_rad_err in H1.
      destruct H1 as [?|[?|[?|[?|[_ ?]]]]]; discriminate.
    + apply _input_a_rad_err in H2.
      destruct H2 as [?|[?|[?|[?|[_ ?]]]]]; discriminate.
    + apply _nucleo_err in H3.
      destruct H3 as [[?|(k & _ & ? & _)]|[[?|(k & _ & ? & _)]|(Hrec & [= ->] & a & dl & Hp)]];
        try discriminate.
      split; [done|]. split; [done|]. eauto 10.
    + apply _rad_a_output_err in H4.
      destruct H4 as [[_ ?]|[[_ ?]|[_ ?]]]; discriminate.
    + apply _rad_a_output_err in H4.
      destruct H4 as [[_ ?]|[[_ ?]|[_ ?]]]; discriminate.
  - intros w HT. apply transformar_err in HT.
    destruct HT as [H1|(v1 & H1 & [H2|(v2 & H2 & [H3|(o1 & o2 & H3 & x & H4)])])].
    + apply _input_a_rad_err in H1.
      destruct H1 as [?|[?|[?|[?|[_ ?]]]]]; discriminate.
    + apply _input_a_rad_err in H2.
      destruct H2 as [?|[?|[?|[?|[_ ?]]]]]; discriminate.
    + apply _nucleo_err in H3.
      destruct H3 as [[?|(k & _ & ? & _)]|[[?|(k & _ & ? & _)]|(_ & ? & _)]];
        discriminate.
    + assert (Hw : w = u' /\ Unidad.reconocida u' = false).
      { destruct H4 as [H4|H4]; apply _rad_a_output_err in H4;
          destruct H4 as [[_ ?]|[[_ ?]|[? [= ->]]]]; try discriminate; done. }
      destruct Hw as [-> Hrec]. split; [done|]. split; [done|]. eauto 10.
Qed.
End Generic.

(** ** Exact real arithmetic: the unit utilities *)

Section RealFacts.
Local Open Scope R_scope.

Ltac literales :=
  cbn [lit fadd fsub fmul fdiv fneg fmod feqb fleb int_ np_pi np_abs np_sign
       np_radians np_degrees np_sin np_cos np_arcsin np_arccos np_arctan2
       np_clip Real.numpy utils.of_int] in *;
  unfold Q2R, inject_Z in *; cbn [Qnum Qden] in *.

Lemma Rmod_range (x y : R) : 0 < y -> 0 <= Real.Rmod x y < y.
Proof.
  intros Hy. unfold Real.Rmod.
  pose proof (Zfloor_bound (x / y)) as [Hlo Hhi].
  assert (Hx : x = x / y * y) by (field; lra).
  split; nra.
Qed.

Lemma Rmod_small (x y : R) : 0 <= x < y -> Real.Rmod x y = x.
Proof.
  intros [Hlo Hhi]. unfold Real.Rmod.
  rewrite (Zfloor_eq 0); [lra|].
  assert (Hy : 0 < y) by lra. split.
  - apply Rmult_le_pos; [lra|]. left. by apply Rinv_0_lt_compat.
  - apply (Rmult_lt_reg_r y); [done|]. field_simplify; lra.
Qed.





Lemma clip_inside (x lo hi : R) : lo <= x <= hi -> Real.clip x lo hi = x.
Proof.
  intros Hx. unfold Real.clip, Rmin, Rmax.
  repeat destruct (Rle_dec _ _); lra.
Qed.

(** [normalize_pi] lands in [[-pi, pi)], which is not [[0, 2 pi)]. *)
Lemma normalize_pi_range (angle : R) :
  - PI <= utils.normalize_pi angle < PI.
Proof.
  unfold utils.normalize_pi. literales.
  pose proof PI_RGT_0.
  pose proof (Rmod_range (angle + PI) (2 * / 1 * PI)) as Hr.
  lra.
Qed.

Lemma normalize_pi_negative : utils.normalize_pi (F := R) (-1) = -1.
Proof.
  unfold utils.normalize_pi. literales.
  pose proof PI2_1. pose proof PI_4.
  rewrite Rmod_small; lra.
Qed.










(** ** Exact real arithmetic: the composition of a triple *)

Lemma Rsign_1 : Real.Rsign 1 = 1.
Proof. unfold Real.Rsign. repeat destruct (Rlt_dec _ _); lra. Qed.

(** With a zero first component the two sign factors are [+1]. *)
Lemma to_rad_zero (m s : R) :
  utils.to_rad 0 m s (lit 1) = (m / 60 + s / 3600) * (PI / 180).
Proof.
  unfold utils.to_rad. literales.
  unfold Real.Reqb.
  destruct (Req_dec_T (1 * / 1) (0 * / 1)) as [Habs|_]; [lra|].
  destruct (Req_dec_T 0 (0 * / 1)) as [_|Habs]; [|lra].
  cbn [negb]. replace (1 * / 1) with 1 by lra. rewrite Rsign_1, Rabs_R0.
  field.
Qed.

Lemma _input_a_rad_dms (d m s : R) t :
  coordinates._input_a_rad (coordinates.Terna d m s) Unidad.DMS t
  = Ok (utils.to_rad d m s (lit 1)).
Proof. reflexivity. Qed.

(** C10 as the code has it.  A DMS triple with a zero first component
    enters as [(m/60 + s/3600)] degrees in radians, the sign factors being
    [+1]: a non-negative angle as soon as the minutes and the seconds are
    non-negative. *)
Theorem dms_zero_degrees (m s : R) t :
  0 <= m -> 0 <= s ->
  exists v,
    coordinates._input_a_rad (coordinates.Terna 0 m s) Unidad.DMS t = Ok v
    /\ v = (m / 60 + s / 3600) * (PI / 180) /\ 0 <= v.
Proof.
  intros Hm Hs. exists ((m / 60 + s / 3600) * (PI / 180)).
  rewrite _input_a_rad_dms, to_rad_zero. split; [done|]. split; [done|].
  pose proof PI_RGT_0. apply Rmult_le_pos; lra.
Qed.

(** C10, the claim refuted: zero degrees and minus thirty minutes enter as
    a negative angle. *)
Lemma dms_zero_degrees_negative :
  coordinates._input_a_rad (coordinates.Terna 0 (-30) 0) Unidad.DMS false
  = Ok (- (PI / 360))
  /\ - (PI / 360) < 0.
Proof.
  pose proof PI_RGT_0. split; [|lra].
  rewrite _input_a_rad_dms, to_rad_zero. f_equal. field.
Qed.

(** The HMS branch composes nothing: its function is not in the module. *)
Lemma _input_a_rad_hms (val : coordinates.entrada R) t :
  coordinates._input_a_rad val Unidad.HMS t = Err (utils.sin_atributo "hms_to_rad").
Proof. by destruct val. Qed.

(** ** Exact real arithmetic: a system to itself, scalar units *)

Lemma complement_twice (x : R) :
  (np_pi / lit 2 - (np_pi / lit 2 - x))%num = x.
Proof. literales. lra. Qed.

(** For radians, degrees and hours on both sides the identity of the
    specification holds: each coordinate goes through the ingress and the
    egress and nothing else, the two complements of the horizontal system
    cancelling. *)
Lemma transformar_same_system_scalar (c1 c2 : R) S u u' kwargs :
  In u [Unidad.RAD; Unidad.DEG; Unidad.HOUR] ->
  In u' [Unidad.RAD; Unidad.DEG; Unidad.HOUR] ->
  exists v1 v2 r1 r2,
    coordinates._input_a_rad (coordinates.Num c1) u false = Ok v1
    /\ coordinates._input_a_rad (coordinates.Num c2) u false = Ok v2
    /\ coordinates._rad_a_output v1 u' false = Ok r1
    /\ coordinates._rad_a_output v2 u' false = Ok r2
    /\ coordinates.transformar (coordinates.Num c1) (coordinates.Num c2)
         S S u u' kwargs = Ok (r1, r2).
Proof.
  intros Hu Hu'.
  assert (Hin : forall c t, exists v, forall t',
    coordinates._input_a_rad (coordinates.Num c) u t = Ok v
    /\ coordinates._input_a_rad (coordinates.Num c) u t' = Ok v).
  { intros c t. simpl in Hu. destruct Hu as [<-|[<-|[<-|[]]]];
      eexists; intros t'; split; reflexivity. }
  assert (Hout : forall x t, exists r, forall t',
    coordinates._rad_a_output x u' t = Ok r
    /\ coordinates._rad_a_output x u' t' = Ok r).
  { intros x t. simpl in Hu'. destruct Hu' as [<-|[<-|[<-|[]]]];
      eexists; intros t'; split; reflexivity. }
  destruct (Hin c1 false) as [v1 Hv1]. destruct (Hin c2 false) as [v2 Hv2].
  destruct (Hout v1 false) as [r1 Hr1]. destruct (Hout v2 false) as [r2 Hr2].
  exists v1, v2, r1, r2.
  split; [apply (Hv1 false)|]. split; [apply (Hv2 false)|].
  split; [apply (Hr1 false)|]. split; [apply (Hr2 false)|].
  erewrite transformar_same_system;
    [|apply (Hv1 (coordinates.es_tiempo_de S))|apply (Hv2 false)].
  rewrite (proj2 (Hr1 (coordinates.es_tiempo_de S))). simpl.
  rewrite complement_twice.
  destruct (String.eqb S Sistema.HORIZONTAL);
    rewrite (proj1 (Hr2 false)); reflexivity.
Qed.
(** ** Exact real arithmetic: the two galactic formulas *)

Lemma clamp_0 : Real.clip 0 (lit (-1)) (lit 1) = 0.
Proof. apply clip_inside. literales. lra. Qed.

Lemma atan2_1_0 : Real.atan2 1 0 = PI / 2.
Proof.
  unfold Real.atan2.
  destruct (Rlt_dec 0 0); [lra|]. destruct (Rlt_dec 0 1); [done|lra].
Qed.

(** Before any normalisation the two galactic formulas are not inverse of
    each other: the galactic point a quarter turn after the node, on the
    galactic equator, goes to the equatorial point a quarter turn after the
    pole's right ascension, which [_equatorial_to_galactic] sends a quarter
    turn before the node, half a turn away from where it started. *)
Lemma galactic_formulas_not_inverse :
  let l := coordinates.lnode + PI / 2 in
  coordinates._galactic_to_equatorial_formula l 0
  = (PI / 2 + coordinates.ap, 0)
  /\ coordinates._equatorial_to_galactic_formula (PI / 2 + coordinates.ap) 0
     = (coordinates.lnode - PI / 2, 0)
  /\ cos ((coordinates.lnode - PI / 2) - l) = -1.
Proof.
  intros l. split; [|split].
  - unfold coordinates._galactic_to_equatorial_formula,
      coordinates._galactic_to_equatorial_sin_d, l.
    cbn [fadd fsub fmul np_sin np_cos np_arcsin np_arctan2 np_clip
         Real.numpy].
    replace (coordinates.lnode + PI / 2 - coordinates.lnode) with (PI / 2) by lra.
    rewrite sin_PI2, cos_PI2, sin_0, cos_0.
    replace (1 * 1) with 1 by lra.
    replace (0 * cos coordinates.dp - 1 * sin coordinates.dp * 0) with 0 by lra.
    replace (0 * sin coordinates.dp + 1 * cos coordinates.dp * 0) with 0 by lra.
    rewrite atan2_1_0.
    rewrite clamp_0. by rewrite asin_0.
  - unfold coordinates._equatorial_to_galactic_formula,
      coordinates._equatorial_to_galactic_sin_b.
    cbn [fadd fsub fmul np_sin np_cos np_arcsin np_arctan2 np_clip
         Real.numpy].
    replace (PI / 2 + coordinates.ap - coordinates.ap) with (PI / 2) by lra.
    rewrite sin_PI2, cos_PI2, sin_0, cos_0.
    replace (1 * 1) with 1 by lra.
    replace (0 * cos coordinates.dp - 1 * sin coordinates.dp * 0) with 0 by lra.
    replace (0 * sin coordinates.dp + 1 * cos coordinates.dp * 0) with 0 by lra.
    rewrite atan2_1_0.
    rewrite clamp_0. by rewrite asin_0.
  - unfold l.
    replace (coordinates.lnode - PI / 2 - (coordinates.lnode + PI / 2))
      with (- PI) by lra.
    rewrite cos_neg. apply cos_PI.
Qed.
End RealFacts.

(** ** The missing normaliser *)

(** C2. For two distinct recognised systems and radian units [transformar]
    returns nothing, in any arithmetic [F]: it stops with the exception of
    one of the two legs of the router, which is the [AttributeError] for
    [utils.normalize_rad] as soon as [phi] and [TS] are in the context.
    [core/utils.py] defines [to_rad], [to_hms], [to_dms] and [normalize_pi]
    and no [normalize_rad], and [normalize_pi] lands in [[-pi, pi)], below
    zero for the angle [-1]. *)
Theorem transformar_distinct_raises (F : Type) (N : NumPy F) (c1 c2 : F)
    (origen destino : string) (kwargs : gmap string F) :
  Sistema.reconocido origen = true -> Sistema.reconocido destino = true ->
  origen <> destino ->
  let ctx := coordinates._normalizar_contexto kwargs in
  (exists e,
      coordinates.transformar (coordinates.Num c1) (coordinates.Num c2)
        origen destino Unidad.RAD Unidad.RAD kwargs = Err e
      /\ (fallo_de_pierna ctx origen e \/ fallo_de_pierna ctx destino e)
      /\ (is_Some (ctx !! "phi") -> is_Some (ctx !! "TS") ->
          e = AttributeError "Astronomia.core.utils" "normalize_rad"))
  /\ map fst (utils.namespace (F := F))
     = ["to_rad"; "to_hms"; "to_dms"; "normalize_pi"]
  /\ utils.getattr (F := F) "normalize_rad"
     = Err (AttributeError "Astronomia.core.utils" "normalize_rad")
  /\ (forall angle : R, (- PI <= utils.normalize_pi angle < PI)%R)
  /\ utils.normalize_pi (F := R) (-1)%R = (-1)%R.
Proof.
  intros Ho Hd Hne ctx.
  split; [by apply transformar_distinct_err|].
  split; [reflexivity|]. split; [reflexivity|].
  split; [apply normalize_pi_range|apply normalize_pi_negative].
Qed.

(** ** The statements at concrete inputs, in exact real arithmetic *)

Section Concrete.
Local Open Scope R_scope.
Import coordinates.

(** [ida_y_vuelta_raises] from the equatorial to the galactic system. *)
Lemma ida_y_vuelta_raises_witness :
  Sistema.reconocido Sistema.ECUATORIAL = true
  /\ Sistema.reconocido Sistema.GALACTICO = true
  /\ Sistema.ECUATORIAL <> Sistema.GALACTICO
  /\ conforme Unidad.RAD (Num 1) = true
  /\ conforme Unidad.RAD (Num 0.5) = true
  /\ exists e,
       transformar (Num 1) (Num 0.5) Sistema.ECUATORIAL Sistema.GALACTICO
         Unidad.RAD Unidad.DEG sin_contexto = Err e
       /\ ida_y_vuelta (Num 1) (Num 0.5) Sistema.ECUATORIAL Sistema.GALACTICO
            Unidad.RAD Unidad.DEG sin_contexto = Err e.
Proof.
  split; [reflexivity|]. split; [reflexivity|]. split; [discriminate|].
  split; [reflexivity|]. split; [reflexivity|].
  destruct (ida_y_vuelta_raises (F := R) (Num 1) (Num 0.5)
              Sistema.ECUATORIAL Sistema.GALACTICO Unidad.RAD Unidad.DEG
              sin_contexto)
    as (e & He & Hrt & _); [reflexivity|reflexivity|discriminate|reflexivity|reflexivity|].
  exists e. split; assumption.
Defined.

(** [transformar_distinct_raises] for an observer with [phi] and [TS]. *)
Lemma transformar_distinct_raises_witness :
  Sistema.reconocido Sistema.HORIZONTAL = true
  /\ Sistema.reconocido Sistema.GALACTICO = true
  /\ Sistema.HORIZONTAL <> Sistema.GALACTICO
  /\ transformar (Num 1) (Num 0.5) Sistema.HORIZONTAL Sistema.GALACTICO
       Unidad.RAD Unidad.RAD observador
     = Err (AttributeError "Astronomia.core.utils" "normalize_rad").
Proof.
  split; [reflexivity|]. split; [reflexivity|]. split; [discriminate|].
  destruct (transformar_distinct_raises R Real.numpy 1 0.5
              Sistema.HORIZONTAL Sistema.GALACTICO observador)
    as [(e & He & _ & Hkeys) _]; [reflexivity|reflexivity|discriminate|].
  rewrite He. f_equal. apply Hkeys; eexists; reflexivity.
Defined.

(** [transformar_same_system_sexagesimal] for radians in, DMS out. *)
Lemma transformar_same_system_sexagesimal_witness :
  conforme Unidad.RAD (Num 1) = true
  /\ conforme Unidad.RAD (Num 0.5) = true
  /\ Unidad.RAD <> Unidad.HMS
  /\ transformar (Num 1) (Num 0.5) Sistema.ECUATORIAL Sistema.ECUATORIAL
       Unidad.RAD Unidad.DMS sin_contexto
     = Err (utils.sin_atributo "rad_to_dms").
Proof.
  split; [reflexivity|]. split; [reflexivity|]. split; [discriminate|].
  destruct (transformar_same_system_sexagesimal (F := R) (Num 1) (Num 0.5)
              Sistema.ECUATORIAL Unidad.RAD sin_contexto)
    as [_ Hout]; [reflexivity|reflexivity|].
  destruct Hout as [Hdms _]; [discriminate|]. exact Hdms.
Defined.

(** [nucleo_missing_parameter] with no parameter at all. *)
Lemma nucleo_missing_parameter_witness :
  sin_contexto !! "TS" = None
  /\ _nucleo_transformacion 1 0.5 Sistema.HORARIO Sistema.ECUATORIAL sin_contexto
     = Err (ValueError (FaltaParametro "TS" "horario")).
Proof.
  split; [reflexivity|].
  destruct (nucleo_missing_parameter (F := R) 1 0.5
              Sistema.HORARIO Sistema.ECUATORIAL sin_contexto) as [Hfirst _].
  destruct Hfirst as [Hrouter _]; [reflexivity|reflexivity|reflexivity|].
  exact Hrouter.
Defined.

(** [nucleo_unrecognised_origin] for a tag that is none of the five. *)
Lemma nucleo_unrecognised_origin_witness :
  Sistema.reconocido "altazimutal" = false
  /\ transformar (Num 1) (Num 0.5) "altazimutal" Sistema.ECUATORIAL
       Unidad.RAD Unidad.RAD sin_contexto
     = Ok (Valor (lit 0.0), Valor (lit 0.0)).
Proof.
  split; [reflexivity|].
  destruct (nucleo_unrecognised_origin (F := R) 1 0.5 "altazimutal" sin_contexto)
    as (_ & _ & HT); [reflexivity|].
  exact HT.
Defined.


(** [dms_zero_degrees] at thirty minutes and fifteen seconds. *)
Lemma dms_zero_degrees_witness :
  0 <= 30 /\ 0 <= 15
  /\ exists v,
       _input_a_rad (Terna 0 30 15) Unidad.DMS false = Ok v
       /\ v = (30 / 60 + 15 / 3600) * (PI / 180) /\ 0 <= v.
Proof.
  assert (Hm : 0 <= 30) by lra. assert (Hs : 0 <= 15) by lra.
  split; [exact Hm|]. split; [exact Hs|].
  exact (dms_zero_degrees 30 15 false Hm Hs).
Defined.

(** C9, the claim refuted: an unknown output unit is reported after the
    ingress has converted both coordinates and the router has returned its
    pair, not before any computation. *)
Lemma output_unit_checked_last :
  transformar (Num 30) (Num 45) Sistema.HORIZONTAL Sistema.HORIZONTAL
    Unidad.DEG "grados" sin_contexto
  = Err (ValueError (UnidadSalidaDesconocida "grados"))
  /\ _input_a_rad (Num 30) Unidad.DEG false = Ok (np_radians 30)
  /\ _input_a_rad (Num 45) Unidad.DEG false = Ok (np_radians 45)
  /\ _nucleo_transformacion (np_radians 30) (np_pi / lit 2 - np_radians 45)%num
       Sistema.HORIZONTAL Sistema.HORIZONTAL sin_contexto
     = Ok (np_radians 30, (np_pi / lit 2 - np_radians 45)%num).
Proof. repeat split. Qed.

(** [transformar_checks] at an output unit that does not exist. *)
Lemma transformar_checks_witness :
  transformar (Num 30) (Num 45) Sistema.HORIZONTAL Sistema.HORIZONTAL
    Unidad.DEG "grados" sin_contexto
  = Err (ValueError (UnidadSalidaDesconocida "grados"))
  /\ Unidad.reconocida "grados" = false
  /\ exists v1 v2 out1 out2,
       _input_a_rad (Num 30) Unidad.DEG false = Ok v1
       /\ _input_a_rad (Num 45) Unidad.DEG false = Ok v2
       /\ _nucleo_transformacion v1 (np_pi / lit 2 - v2)%num
            Sistema.HORIZONTAL Sistema.HORIZONTAL sin_contexto
          = Ok (out1, out2).
Proof.
  assert (HT : transformar (Num 30) (Num 45) Sistema.HORIZONTAL
                 Sistema.HORIZONTAL Unidad.DEG "grados" sin_contexto
               = Err (ValueError (UnidadSalidaDesconocida "grados")))
    by reflexivity.
  split; [exact HT|].
  destruct (transformar_checks (F := R) 30 45 Sistema.HORIZONTAL
              Sistema.HORIZONTAL Unidad.DEG "grados" sin_contexto)
    as (_ & _ & _ & _ & Hlast).
  destruct (Hlast "grados" HT) as (_ & Hrec & v1 & v2 & o1 & o2 & H1 & H2 & H3).
  split; [exact Hrec|]. exists v1, v2, o1, o2. repeat split; assumption.
Defined.
End Concrete.

(** * Further properties of the code

    Properties of functions and behaviours the statements above leave
    out. *)

(** ** The context resolver and the validation, in any arithmetic *)

Section Resolver.
Context {F : Type} `{NumPy F}.
Implicit Types (ctx kwargs : gmap string F).

(** X1. [_validar_ctx] passes exactly when every key of the list is in the
    context, and otherwise reports the first absent key of the list, with
    the system it was called for. *)
Theorem _validar_ctx_first_missing ctx keys sistema :
  (coordinates._validar_ctx ctx keys sistema = Ok tt
   <-> Forall (fun k => is_Some (ctx !! k)) keys)
  /\ (forall e, coordinates._validar_ctx ctx keys sistema = Err e <->
       exists (pre : list string) (k : string) (post : list string),
         keys = (pre ++ k :: post)%list
         /\ Forall (fun k' => is_Some (ctx !! k')) pre
         /\ ctx !! k = None
         /\ e = ValueError (FaltaParametro k sistema)).
Proof.
  split; [apply _validar_ctx_ok|].
  induction keys as [|k0 keys IH]; intros e; simpl.
  - split; [discriminate|]. intros (pre & k & post & Hk & _).
    by destruct pre.
  - destruct (ctx !! k0) as [v|] eqn:Hk0.
    + rewrite IH. split.
      * intros (pre & k & post & -> & Hpre & Hk & ->).
        exists (k0 :: pre), k, post. repeat split; try done.
        constructor; eauto.
      * intros (pre & k & post & Hkeys & Hpre & Hk & ->).
        destruct pre as [|p pre]; simpl in Hkeys; injection Hkeys as -> ->.
        -- congruence.
        -- inversion Hpre; subst. exists pre, k, post. done.
    + split.
      * intros [= <-]. exists [], k0, keys. repeat split; try done.
      * intros (pre & k & post & Hkeys & Hpre & Hk & ->).
        destruct pre as [|p pre]; simpl in Hkeys; injection Hkeys as -> ->.
        -- done.
        -- inversion Hpre as [|? ? [v Hv] ?]; subst. congruence.
Qed.

(** X2. What the resolved context holds under the three canonical keys: the
    value of the suffixed key in radians when one is given, which wins over
    a canonical key given beside it, [TS_h] winning over [TS_deg]; the
    canonical key's own value otherwise; and nothing when neither is given. *)
Theorem _normalizar_contexto_canonical_keys kwargs :
  let ctx := coordinates._normalizar_contexto kwargs in
  ctx !! "phi"
  = match kwargs !! "phi_deg" with
    | Some v => Some (np_radians v)
    | None => kwargs !! "phi"
    end
  /\ ctx !! "TS"
     = match kwargs !! "TS_h" with
       | Some v => Some (np_radians (v * lit 15.0)%num)
       | None =>
           match kwargs !! "TS_deg" with
           | Some v => Some (np_radians v)
           | None => kwargs !! "TS"
           end
       end
  /\ ctx !! "epsilon"
     = match kwargs !! "epsilon_deg" with
       | Some v => Some (np_radians v)
       | None => kwargs !! "epsilon"
       end.
Proof.
  unfold coordinates._normalizar_contexto.
  repeat match goal with
    | |- context [match ?m !! ?k with _ => _ end] =>
        let E := fresh "E" in destruct (m !! k) eqn:E
    end;
  simplify_map_eq; done.
Qed.

(** What is left of the suffixed keys. *)
Lemma _normalizar_contexto_consumes kwargs :
  let ctx := coordinates._normalizar_contexto kwargs in
  ctx !! "phi_deg" = None /\ ctx !! "TS_h" = None
  /\ ctx !! "epsilon_deg" = None
  /\ ctx !! "TS_deg"
     = match kwargs !! "TS_h" with
       | Some _ => kwargs !! "TS_deg"
       | None => None
       end.
Proof.
  intros ctx. unfold ctx, coordinates._normalizar_contexto.
  split; [|split; [|split]].
  all: repeat match goal with
         | |- context [match ?m !! ?k with _ => _ end] =>
             let E := fresh "E" in destruct (m !! k) eqn:E
         end;
       simplify_map_eq; done.
Qed.

(** X3. The resolver consumes the suffixed keys and touches nothing else:
    [phi_deg], [TS_h] and [epsilon_deg] are gone from the resolved context,
    [TS_deg] is gone unless [TS_h] was given beside it, in which case it
    stays as it was, and every key other than the seven keeps its value. *)
Theorem _normalizar_contexto_other_keys kwargs :
  let ctx := coordinates._normalizar_contexto kwargs in
  ctx !! "phi_deg" = None /\ ctx !! "TS_h" = None
  /\ ctx !! "epsilon_deg" = None
  /\ ctx !! "TS_deg"
     = match kwargs !! "TS_h" with
       | Some _ => kwargs !! "TS_deg"
       | None => None
       end
  /\ forall k,
       ~ In k ["phi"; "phi_deg"; "TS"; "TS_h"; "TS_deg"; "epsilon"; "epsilon_deg"] ->
       ctx !! k = kwargs !! k.
Proof.
  intros ctx.
  destruct (_normalizar_contexto_consumes kwargs) as (H1 & H2 & H3 & H4).
  split; [done|]. split; [done|]. split; [done|]. split; [done|].
  intros k Hk. simpl in Hk. unfold ctx, coordinates._normalizar_contexto.
  repeat match goal with
    | |- context [match ?m !! ?k' with _ => _ end] => destruct (m !! k')
    end;
  repeat first
    [ rewrite lookup_insert_ne by (intros <-; tauto)
    | rewrite lookup_delete_ne by (intros <-; tauto) ];
  reflexivity.
Qed.

(** X4. Resolving a resolved context changes nothing, unless both [TS_h]
    and [TS_deg] were given: the first pass then takes [TS] from [TS_h] and
    leaves [TS_deg] in place, and a second pass would take [TS] from it. *)
Theorem _normalizar_contexto_twice kwargs :
  (kwargs !! "TS_h" = None \/ kwargs !! "TS_deg" = None ->
   coordinates._normalizar_contexto (coordinates._normalizar_contexto kwargs)
   = coordinates._normalizar_contexto kwargs)
  /\ (forall h g,
       kwargs !! "TS_h" = Some h -> kwargs !! "TS_deg" = Some g ->
       coordinates._normalizar_contexto kwargs !! "TS"
       = Some (np_radians (h * lit 15.0)%num)
       /\ coordinates._normalizar_contexto
            (coordinates._normalizar_contexto kwargs) !! "TS"
          = Some (np_radians g)).
Proof.
  destruct (_normalizar_contexto_consumes kwargs) as (H1 & H2 & H3 & H4).
  split.
  - intros Hone. apply _normalizar_contexto_canonical; try done.
    rewrite H4. destruct Hone as [-> | ->]; [done|].
    by destruct (kwargs !! "TS_h").
  - intros h g Hh Hg. rewrite Hh, Hg in H4.
    assert (Hfirst : coordinates._normalizar_contexto kwargs !! "TS"
                     = Some (np_radians (h * lit 15.0)%num)).
    { unfold coordinates._normalizar_contexto.
      repeat match goal with
        | |- context [match ?m !! ?k with _ => _ end] =>
            let E := fresh "E" in destruct (m !! k) eqn:E
        end;
      simplify_map_eq; done. }
    split; [done|].
    set (ctx := coordinates._normalizar_contexto kwargs) in *.
    unfold coordinates._normalizar_contexto at 1.
    rewrite H1. rewrite H2. rewrite H4.
    destruct (<["TS":=np_radians g]> (delete "TS_deg" ctx) !! "epsilon_deg");
      simplify_map_eq; done.
Qed.

(** ** What the router returns, in any arithmetic *)

Lemma _paso_2_unrecognised (alpha delta : F) destino ctx :
  Sistema.reconocido destino = false ->
  coordinates._paso_2 alpha delta destino ctx
  = Err (ValueError (SistemaDestinoNoSoportado destino)).
Proof.
  unfold Sistema.reconocido, Sistema.todos. simpl.
  rewrite !orb_false_iff. intros (E1 & E2 & E3 & E4 & E5 & _).
  unfold coordinates._paso_2. by rewrite E1, E2, E3, E4, E5.
Qed.

(** X5. The router returns a pair in two cases only: origin and destination
    are the same tag, and the pair is the input; or the origin is none of
    the five systems and the destination is the equatorial one, and the pair
    is [(0.0, 0.0)].  Between two distinct recognised systems it never
    returns. *)
Theorem _nucleo_returns_iff (c1 c2 : F) origen destino ctx (r : F * F) :
  coordinates._nucleo_transformacion c1 c2 origen destino ctx = Ok r
  <-> (origen = destino /\ r = (c1, c2))
      \/ (origen <> destino /\ destino = Sistema.ECUATORIAL
          /\ Sistema.reconocido origen = false /\ r = (lit 0.0, lit 0.0)).
Proof.
  destruct (decide (origen = destino)) as [->|Hne].
  { rewrite _nucleo_same. split.
    - intros [= <-]. by left.
    - intros [[_ ->]|[Habs _]]; [done|congruence]. }
  rewrite _nucleo_distinct by done. split.
  - intros Hok. right.
    destruct (Sistema.reconocido origen) eqn:Ho.
    + destruct (decide (origen = Sistema.ECUATORIAL)) as [->|Hoe].
      * rewrite _paso_1_hub in Hok. simpl in Hok.
        destruct (Sistema.reconocido destino) eqn:Hd.
        -- destruct (_paso_2_spoke c1 c2 destino ctx Hd) as [e He];
             [congruence|]. congruence.
        -- rewrite _paso_2_unrecognised in Hok by done. discriminate.
      * destruct (_paso_1_spoke c1 c2 origen ctx Ho Hoe) as [e He].
        rewrite He in Hok. discriminate.
    + rewrite _paso_1_unrecognised in Hok by done. simpl in Hok.
      destruct (decide (destino = Sistema.ECUATORIAL)) as [->|Hde].
      * rewrite _paso_2_hub in Hok. injection Hok as <-. done.
      * destruct (Sistema.reconocido destino) eqn:Hd.
        -- destruct (_paso_2_spoke (lit 0.0) (lit 0.0) destino ctx Hd) as [e He];
             [done|]. congruence.
        -- rewrite _paso_2_unrecognised in Hok by done. discriminate.
  - intros [[Habs _]|(_ & -> & Ho & ->)]; [congruence|].
    rewrite _paso_1_unrecognised by done. reflexivity.
Qed.

(** X6. A destination outside the five systems is refused by name when the
    origin is the equatorial system or is itself outside the five and
    another tag: the first step has nothing to compute and the second chain
    ends in its [raise]. *)
Theorem _nucleo_unsupported_destination (c1 c2 : F) origen destino ctx :
  Sistema.reconocido destino = false -> origen <> destino ->
  origen = Sistema.ECUATORIAL \/ Sistema.reconocido origen = false ->
  coordinates._nucleo_transformacion c1 c2 origen destino ctx
  = Err (ValueError (SistemaDestinoNoSoportado destino))
  /\ texto (SistemaDestinoNoSoportado destino)
     = "Sistema destino no soportado: " ++ destino.
Proof.
  intros Hd Hne Ho. split; [|reflexivity].
  rewrite _nucleo_distinct by done.
  destruct Ho as [->|Ho].
  - rewrite _paso_1_hub. simpl. by apply _paso_2_unrecognised.
  - rewrite _paso_1_unrecognised by done. simpl. by apply _paso_2_unrecognised.
Qed.
(** ** A system to itself, in any arithmetic *)

(** X7. From a system to itself with the same scalar unit on both sides,
    for float coordinates and whatever the context.  With radians the
    first coordinate comes back as it went in; with degrees it comes back
    as [degrees(radians(c))], with hours as
    [degrees(radians(c * 15.0)) / 15.0 % 24.0].  The second coordinate goes
    the same way, except in the horizontal system, where the two
    complements [pi/2 - (pi/2 - v)] are applied to the radians in
    between. *)
Theorem transformar_unit_round_trip (c1 c2 : F) S u kwargs :
  let T := coordinates.transformar (coordinates.Num c1) (coordinates.Num c2)
             S S u u kwargs in
  let z := fun v : F =>
    if String.eqb S Sistema.HORIZONTAL
    then (np_pi / lit 2 - (np_pi / lit 2 - v))%num else v in
  let hours := fun v : F => ((np_degrees v / lit 15.0) mod lit 24.0)%num in
  (u = Unidad.RAD ->
   T = Ok (coordinates.Valor c1, coordinates.Valor (z c2)))
  /\ (u = Unidad.DEG ->
      T = Ok (coordinates.Valor (np_degrees (np_radians c1)),
              coordinates.Valor (np_degrees (z (np_radians c2)))))
  /\ (u = Unidad.HOUR ->
      T = Ok (coordinates.Valor (hours (np_radians (c1 * lit 15.0)%num)),
              coordinates.Valor (hours (z (np_radians (c2 * lit 15.0)%num))))).
Proof.
  intros T z hours. unfold T.
  split; [|split]; intros ->;
    erewrite transformar_same_system by reflexivity; reflexivity.
Qed.
End Resolver.


(** ** The signs of [to_rad], in exact real arithmetic *)

Section RealUnits.
Local Open Scope R_scope.

Ltac reales :=
  cbn [lit fadd fsub fmul fdiv fneg fmod feqb fleb int_ np_pi np_abs np_sign
       np_radians np_degrees np_sin np_cos np_arcsin np_arccos np_arctan2
       np_clip Real.numpy utils.of_int] in *;
  unfold Q2R, inject_Z in *; cbn [Qnum Qden] in *.

Lemma to_rad_eq (d m s : R) :
  utils.to_rad d m s (lit 1)
  = (Rabs d + m / 60 + s / 3600) * (PI / 180)
    * Real.Rsign (if Req_dec_T d 0 then 1 else d).
Proof.
  unfold utils.to_rad. reales. unfold Real.Reqb.
  destruct (Req_dec_T (1 * / 1) (0 * / 1)) as [Habs|_]; [lra|].
  replace (0 * / 1) with 0 by lra. replace (1 * / 1) with 1 by lra.
  replace (600 * / 10) with 60 by lra. replace (36000 * / 10) with 3600 by lra.
  cbn [negb]. rewrite Rsign_1.
  destruct (Req_dec_T d 0); cbn [negb]; ring.
Qed.

Lemma Rsign_pos (x : R) : 0 < x -> Real.Rsign x = 1.
Proof. intros Hx. unfold Real.Rsign. repeat destruct (Rlt_dec _ _); lra. Qed.

Lemma Rsign_neg (x : R) : x < 0 -> Real.Rsign x = -1.
Proof. intros Hx. unfold Real.Rsign. repeat destruct (Rlt_dec _ _); lra. Qed.

(** X11. The signs of [to_rad]: an explicit [sign] of zero counts as [+1]
    and one of [-1] negates the angle; negating a non-zero first component
    negates the angle, whatever the minutes and seconds. *)
Theorem to_rad_signs (d m s : R) :
  utils.to_rad d m s (lit 0) = utils.to_rad d m s (lit 1)
  /\ utils.to_rad d m s (lit (-1)) = - utils.to_rad d m s (lit 1)
  /\ (d <> 0 -> utils.to_rad (- d) m s (lit 1) = - utils.to_rad d m s (lit 1)).
Proof.
  split; [|split].
  - unfold utils.to_rad. reales. unfold Real.Reqb.
    destruct (Req_dec_T (0 * / 1) (0 * / 1)) as [_|Habs]; [|lra].
    destruct (Req_dec_T (1 * / 1) (0 * / 1)) as [Habs|_]; [lra|].
    reflexivity.
  - unfold utils.to_rad. reales. unfold Real.Reqb.
    destruct (Req_dec_T (-1 * / 1) (0 * / 1)) as [Habs|_]; [lra|].
    destruct (Req_dec_T (1 * / 1) (0 * / 1)) as [Habs|_]; [lra|].
    cbn [negb]. replace (-1 * / 1) with (-1) by lra.
    replace (1 * / 1) with 1 by lra.
    rewrite Rsign_1, Rsign_neg by lra. ring.
  - intros Hd. rewrite !to_rad_eq, Rabs_Ropp.
    destruct (Req_dec_T (- d) 0) as [Hz|_]; [lra|].
    destruct (Req_dec_T d 0) as [Hz|_]; [lra|].
    destruct (Rlt_dec d 0).
    + rewrite (Rsign_neg d), Rsign_pos by lra. ring.
    + rewrite (Rsign_pos d), Rsign_neg by lra. ring.
Qed.
End RealUnits.

(** ** The further properties at concrete inputs *)

Section ConcreteExtras.
Local Open Scope R_scope.

(** [_normalizar_contexto_twice] where [TS_h] and [TS_deg] are both given:
    the first pass reads the hours, a second one would read the degrees. *)
Lemma _normalizar_contexto_twice_witness :
  dos_tiempos !! "TS_h" = Some 5 /\ dos_tiempos !! "TS_deg" = Some 90
  /\ coordinates._normalizar_contexto dos_tiempos !! "TS"
     = Some (np_radians (5 * lit 15.0)%num)
  /\ coordinates._normalizar_contexto
       (coordinates._normalizar_contexto dos_tiempos) !! "TS"
     = Some (np_radians 90).
Proof.
  assert (Hh : dos_tiempos !! "TS_h" = Some 5) by reflexivity.
  assert (Hg : dos_tiempos !! "TS_deg" = Some 90) by reflexivity.
  split; [exact Hh|]. split; [exact Hg|].
  destruct (_normalizar_contexto_twice (F := R) dos_tiempos) as [_ Hboth].
  exact (Hboth 5 90 Hh Hg).
Defined.

(** [_nucleo_unsupported_destination] from the equatorial system. *)
Lemma _nucleo_unsupported_destination_witness :
  Sistema.reconocido "supergalactico" = false
  /\ Sistema.ECUATORIAL <> "supergalactico"
  /\ coordinates._nucleo_transformacion (F := R) 1 0.5
       Sistema.ECUATORIAL "supergalactico" sin_contexto
     = Err (ValueError (SistemaDestinoNoSoportado "supergalactico")).
Proof.
  split; [reflexivity|]. split; [discriminate|].
  destruct (_nucleo_unsupported_destination (F := R) 1 0.5
              Sistema.ECUATORIAL "supergalactico" sin_contexto)
    as [Herr _]; [reflexivity|discriminate|by left|].
  exact Herr.
Defined.

End ConcreteExtras.
